(** * Dashboard ONS (app.py): a shallow embedding and its properties

    The script [app.py] is one Streamlit render pass: connect to ClickHouse,
    read the subsystem catalogue, read the selected window of the table
    [balanco_energia_subsistemas], show four metrics and a load chart.

    Conventions of the embedding:
    - pandas/ClickHouse [Float64] values are rationals ([Q]); equalities
      between computed numbers are stated with [==]; rounding is not
      modelled, and a property that needs the computed sums to stay
      finite says so with [limite_float64];
    - a DataFrame is the list of its rows, a column is the list of its
      cells, a failed query gives the empty frame [pd.DataFrame()] = [[]];
    - every Streamlit call appends one [Evento] to the trace of the pass,
      [st.stop()] and an uncaught exception end the pass;
    - the two SQL texts are the two constructors of [Query], their holes
      are the constructor's arguments, and [query_df] gives their
      meaning on the table held by the client;
    - the decorators [st.cache_resource] and [st.cache_data] are not part
      of the model: one pass, no memoised result. *)

From Stdlib Require Import QArith Qminmax Lqa Lia.
From stdpp Require Import base decidable option list sorting strings.

Local Open Scope Q_scope.
Local Open Scope string_scope.
Local Open Scope list_scope.

(** ** Data model *)

(** Dates ([datetime.date], column [data_ref]) as day numbers and
    timestamps (column [din_instante]) as a count of seconds. *)
Definition Data : Type := Z.
Definition Instante : Type := Z.
Bind Scope Z_scope with Data Instante.

(** [data_fim - timedelta(days=7)] *)
Definition timedelta_days (d : Data) (n : Z) : Data := (d - n)%Z.

(** Modelled from the spec: the schema of table
    [balanco_energia_subsistemas] is not in the source. The load is a
    number, each of the four generation components may be absent (the
    query coalesces them), the label is a string. *)
Record Registro : Type := mkRegistro {
  data_ref : Data;
  din_instante_reg : Instante;
  nom_subsistema_reg : string;
  val_carga_reg : Q;
  val_gerhidraulica : option Q;
  val_gertermica : option Q;
  val_gereolica : option Q;
  val_gersolar : option Q
}.

(** One row of the frame returned for [query_principal]: the eight
    columns of its SELECT list. *)
Record Linha : Type := mkLinha {
  din_instante : Instante;
  nom_subsistema : string;
  val_carga : Q;
  geracao_hidraulica : Q;
  geracao_termica : Q;
  geracao_eolica : Q;
  geracao_solar : Q;
  geracao_total : Q
}.

(** ** The two queries *)

(** [subsistemas_query] is the constant text of lines 72-77;
    [query_principal] is the f-string of lines 96-113 with its three
    holes [{data_inicio}], [{data_fim}] and the labels joined into
    [IN ('...')]. Labels are taken to hold no quote character. *)
Inductive Query : Type -> Type :=
| subsistemas_query : Query string
| query_principal (data_inicio data_fim : Data)
    (subsistemas_selecionados : list string) : Query Linha.

Arguments query_principal (data_inicio data_fim)%_Z subsistemas_selecionados%_list.

(** SQL [COALESCE(v, d)] *)
Definition COALESCE (v : option Q) (d : Q) : Q :=
  match v with Some x => x | None => d end.

(** [ORDER BY din_instante, nom_subsistema]; ClickHouse compares
    [String] values byte by byte, which is [String.le]. *)
Definition ordem_principal (r1 r2 : Linha) : Prop :=
  (din_instante r1 < din_instante r2)%Z \/
  (din_instante r1 = din_instante r2 /\
   String.le (nom_subsistema r1) (nom_subsistema r2)).

#[global] Instance ordem_principal_dec (r1 r2 : Linha) :
  Decision (ordem_principal r1 r2).
Proof. unfold ordem_principal. apply _. Defined.

(** The SELECT list of [query_principal] on one record. *)
Definition selecionar (r : Registro) : Linha :=
  {| din_instante := din_instante_reg r;
     nom_subsistema := nom_subsistema_reg r;
     val_carga := val_carga_reg r;
     geracao_hidraulica := COALESCE (val_gerhidraulica r) 0;
     geracao_termica := COALESCE (val_gertermica r) 0;
     geracao_eolica := COALESCE (val_gereolica r) 0;
     geracao_solar := COALESCE (val_gersolar r) 0;
     geracao_total :=
       COALESCE (val_gerhidraulica r) 0 + COALESCE (val_gertermica r) 0 +
       COALESCE (val_gereolica r) 0 + COALESCE (val_gersolar r) 0 |}.

(** The WHERE clause of [query_principal]. *)
Definition onde_principal (data_inicio data_fim : Data)
    (subsistemas : list string) (r : Registro) : Prop :=
  (data_inicio <= data_ref r)%Z /\ (data_ref r <= data_fim)%Z /\
  nom_subsistema_reg r ∈ subsistemas.

#[global] Instance onde_principal_dec di df subs r :
  Decision (onde_principal di df subs r).
Proof. unfold onde_principal. apply _. Defined.

(** What each query returns on a table. *)
Definition executar {R : Type} (q : Query R) (tabela : list Registro) : list R :=
  match q in Query R0 return list R0 with
  | subsistemas_query =>
      merge_sort String.le
        (remove_dups
           (filter (fun s : string => s <> "") (nom_subsistema_reg <$> tabela)))
  | query_principal di df subs =>
      merge_sort ordem_principal
        (selecionar <$> filter (onde_principal di df subs) tabela)
  end.

(** ** The ClickHouse client *)

(** A connected client: the table it reads and, for each query, whether
    [query_df] raises (with the exception's message). *)
Record Client : Type := mkClient {
  tabela : list Registro;
  falha : forall R : Type, Query R -> option string
}.

(** [_client.query_df(query)]: the exception's message or the frame. *)
Definition query_df (c : Client) {R : Type} (q : Query R) : string + list R :=
  match falha c R q with
  | Some e => inl e
  | None => inr (executar q (tabela c))
  end.

(** ** pandas aggregations on a column *)

Module pd.

(** [Series.sum()] *)
Definition sum (c : list Q) : Q := foldr Qplus 0 c.

(** [Series.mean()]; [None] stands for NaN (no cell). *)
Definition mean (c : list Q) : option Q :=
  match c with
  | [] => None
  | _ :: _ => Some (sum c / inject_Z (Z.of_nat (length c)))
  end.

(** [Series.max()]; [None] stands for NaN (no cell). *)
Definition max (c : list Q) : option Q :=
  match c with
  | [] => None
  | v :: c' => Some (foldl Qmax v c')
  end.

(** [s1 + s2] on two columns of one frame. *)
Definition add (c1 c2 : list Q) : list Q := zip_with Qplus c1 c2.

End pd.

(** ** plotly figures *)

Module go.

Record Line : Type := mkLine { color : string; width : Z }.

Record Scatter : Type := mkScatter {
  x : list Instante;
  y : list Q;
  mode : string;
  name : string;
  line : Line;
  hovertemplate : string
}.

Record Legend : Type := mkLegend {
  orientation : string; yanchor : string; legend_y : Q;
  xanchor : string; legend_x : Q
}.

Record Layout : Type := mkLayout {
  title : string; xaxis_title : string; yaxis_title : string;
  height : Z; hovermode : string; showlegend : bool; legend : Legend
}.

Record Axes : Type := mkAxes {
  showgrid : bool; gridwidth : Z; gridcolor : string
}.

Record Figure : Type := mkFigure {
  data : list Scatter;
  layout : option Layout;
  xaxes : option Axes;
  yaxes : option Axes
}.

(** [go.Figure()] *)
Definition Figure_vazia : Figure :=
  {| data := []; layout := None; xaxes := None; yaxes := None |}.

(** [fig.add_trace(t)] *)
Definition add_trace (fig : Figure) (t : Scatter) : Figure :=
  {| data := data fig ++ [t]; layout := layout fig;
     xaxes := xaxes fig; yaxes := yaxes fig |}.

Definition update_layout (fig : Figure) (l : Layout) : Figure :=
  {| data := data fig; layout := Some l;
     xaxes := xaxes fig; yaxes := yaxes fig |}.

Definition update_xaxes (fig : Figure) (a : Axes) : Figure :=
  {| data := data fig; layout := layout fig;
     xaxes := Some a; yaxes := yaxes fig |}.

Definition update_yaxes (fig : Figure) (a : Axes) : Figure :=
  {| data := data fig; layout := layout fig;
     xaxes := xaxes fig; yaxes := Some a |}.

End go.

(** ** One render pass *)

(** The expander "Informações dos Dados": period, selection and number
    of records. The table of per-subsystem statistics is left out of
    the model (its [std] column is a square root of floats). *)
Record Informacoes : Type := mkInformacoes {
  info_periodo : Data * Data;
  info_subsistemas : list string;
  info_total_de_registros : nat
}.

(** What a pass does that can be observed: what it shows and what it
    asks the database. A metric carries its number ([None] for NaN)
    and the format it is printed with. *)
Inductive Evento : Type :=
| st_title (s : string)
| st_markdown (s : string)
| st_error (s : string)
| st_info (s : string)
| st_warning (s : string)
| st_sidebar_header (s : string)
| st_metric (label : string) (valor : option Q) (formato : string)
| st_subheader (s : string)
| st_plotly_chart (fig : go.Figure)
| st_expander (label : string) (conteudo : Informacoes)
| client_query_df {R : Type} (q : Query R).

(** How a pass ends early: [st.stop()] or an uncaught exception. *)
Inductive Fim : Type :=
| Stop
| Excecao (e : string).

(** A step of the script: the events it adds, then its value or the
    early end. *)
Definition Script (A : Type) : Type := list Evento * (Fim + A).

#[global] Instance Script_ret : MRet Script := fun A a => ([], inr a).

#[global] Instance Script_bind : MBind Script := fun A B f m =>
  match m with
  | (tr, inl fim) => (tr, inl fim)
  | (tr, inr a) => let '(tr', r) := f a in (tr ++ tr', r)
  end.

Definition emitir (e : Evento) : Script unit := ([e], inr tt).
Definition st_stop {A : Type} : Script A := ([], inl Stop).
Definition raise {A : Type} (e : string) : Script A := ([], inl (Excecao e)).

(** The events of a pass and how it ended. *)
Definition eventos {A : Type} (s : Script A) : list Evento := fst s.
Definition resultado {A : Type} (s : Script A) : Fim + A := snd s.

(** What is outside the script: the outcome of [get_client] on the
    secrets (the exception's message, or the client), today's date, the
    two sidebar widgets as functions of the arguments the script gives
    them, and plotly's palette [px.colors.qualitative.Set1]. *)
Record Ambiente : Type := mkAmbiente {
  get_client : string + Client;
  hoje : Data;
  date_input : Data * Data -> list Data;
  multiselect : list string -> list string -> list string;
  Set1 : list string
}.

Definition init_clickhouse_connection (amb : Ambiente) : Script (option Client) :=
  match get_client amb with
  | inr client => mret (Some client)
  | inl e =>
      emitir (st_error ("Erro na conexão com ClickHouse: " ++ e));;
      emitir (st_info "Configure as credenciais em .streamlit/secrets.toml");;
      mret None
  end.

(** Lines 35-41, the body under [st.cache_data]: what a call does when
    the cache holds no live entry for the query. The [client_query_df]
    event marks the call and the query it asks for. *)
Definition load_data {R : Type} (_client : Client) (query : Query R)
  : Script (list R) :=
  emitir (client_query_df query);;
  match query_df _client query with
  | inr df => mret df
  | inl e =>
      emitir (st_error ("Erro na consulta: " ++ e));;
      mret []
  end.

(** *** Metrics (lines 128-144) *)

(** [df['val_carga'].sum() / 2] *)
Definition carga_total (df : list Linha) : Q :=
  pd.sum (val_carga <$> df) / 2.

(** [df['val_carga'].mean()] *)
Definition demanda_media (df : list Linha) : option Q :=
  pd.mean (val_carga <$> df).

(** [df['val_carga'].max()] *)
Definition pico_demanda (df : list Linha) : option Q :=
  pd.max (val_carga <$> df).

(** [(df['geracao_hidraulica'] + df['geracao_eolica'] + df['geracao_solar']).sum()] *)
Definition geracao_renovavel (df : list Linha) : Q :=
  pd.sum (pd.add (pd.add (geracao_hidraulica <$> df) (geracao_eolica <$> df))
                 (geracao_solar <$> df)).

(** [df['geracao_total'].sum()] *)
Definition geracao_total_soma (df : list Linha) : Q :=
  pd.sum (geracao_total <$> df).

(** [(geracao_renovavel / geracao_total_soma * 100) if geracao_total_soma > 0 else 0] *)
Definition renovavel_pct (df : list Linha) : Q :=
  if Qlt_le_dec 0 (geracao_total_soma df)
  then geracao_renovavel df / geracao_total_soma df * 100
  else 0.

Definition metricas (df : list Linha) : Script unit :=
  emitir (st_metric "Energia Total" (Some (carga_total df)) "{:,.0f} MWh");;
  emitir (st_metric "Demanda Média" (demanda_media df) "{:,.0f} MW");;
  emitir (st_metric "Pico de Demanda" (pico_demanda df) "{:,.0f} MW");;
  emitir (st_metric "Renovável" (Some (renovavel_pct df)) "{:.1f}%").

(** *** The load curve (lines 151-199) *)

(** [df[df['nom_subsistema'] == subsistema]] *)
Definition df_sub (df : list Linha) (subsistema : string) : list Linha :=
  filter (fun r => nom_subsistema r = subsistema) df.

(** The [go.Scatter] of the loop body, for the subsystem at index [i]. *)
Definition trace (cores : list string) (df : list Linha)
    (i : nat) (subsistema : string) : go.Scatter :=
  {| go.x := din_instante <$> df_sub df subsistema;
     go.y := val_carga <$> df_sub df subsistema;
     go.mode := "lines";
     go.name := subsistema;
     go.line := {| go.color := nth (i mod length cores) cores "";
                   go.width := 2 |};
     go.hovertemplate :=
       "<b>" ++ subsistema ++ "</b><br>" ++ "Data: %{x}<br>" ++
       "Carga: %{y:,.0f} MW<extra></extra>" |}.

(** [for i, subsistema in enumerate(subsistemas_selecionados)], from
    index [i] on, on the figure built so far. *)
Fixpoint laco_subsistemas (cores : list string) (df : list Linha) (i : nat)
    (subsistemas : list string) (fig : go.Figure) : go.Figure :=
  match subsistemas with
  | [] => fig
  | subsistema :: resto =>
      laco_subsistemas cores df (S i) resto
        (match df_sub df subsistema with
         | [] => fig
         | _ :: _ => go.add_trace fig (trace cores df i subsistema)
         end)
  end.

Definition curva_de_carga (cores : list string) (df : list Linha)
    (subsistemas_selecionados : list string) : go.Figure :=
  let fig := go.Figure_vazia in
  let fig := laco_subsistemas cores df 0 subsistemas_selecionados fig in
  let fig := go.update_layout fig
    {| go.title := "Demanda por Subsistema (MW)";
       go.xaxis_title := "Data/Hora";
       go.yaxis_title := "Carga (MW)";
       go.height := 500;
       go.hovermode := "x unified";
       go.showlegend := true;
       go.legend := {| go.orientation := "h"; go.yanchor := "bottom";
                       go.legend_y := 102 # 100; go.xanchor := "right";
                       go.legend_x := 1 |} |} in
  let fig := go.update_xaxes fig
    {| go.showgrid := true; go.gridwidth := 1; go.gridcolor := "lightgray" |} in
  go.update_yaxes fig
    {| go.showgrid := true; go.gridwidth := 1; go.gridcolor := "lightgray" |}.

(** *** The script *)

(** Lines 66-69: the pair the picker gave, or its first date twice;
    [periodo[0]] on an empty tuple raises. *)
Definition periodo_de_analise (periodo : list Data) : Script (Data * Data) :=
  match periodo with
  | [data_inicio; data_fim] => mret (data_inicio, data_fim)
  | d :: _ => mret (d, d)
  | [] => raise "IndexError: tuple index out of range"
  end.

(** Lines 86: [l[:3] if len(l) > 3 else l] *)
Definition padrao_multiselect (l : list string) : list string :=
  if decide (3 < length l)%nat then take 3 l else l.

(** The footer's HTML (lines 224-228), as the literal has it. *)
Definition rodape : string :=
  "
        <div style='text-align: center; color: #666;'>
            Dashboard ONS - Sistema Elétrico Brasileiro | Dados do ClickHouse Cloud
        </div>
        ".

Definition main (amb : Ambiente) : Script unit :=
  emitir (st_title "⚡ Dashboard Balanço Energético ONS");;
  emitir (st_markdown "**Sistema Elétrico Brasileiro - Dados Semi-horários**");;
  client ← init_clickhouse_connection amb;
  match client with
  | None => st_stop
  | Some client =>
      emitir (st_sidebar_header "📊 Filtros");;
      let data_fim := hoje amb in
      let data_inicio := timedelta_days data_fim 7 in
      let periodo := date_input amb (data_inicio, data_fim) in
      '(data_inicio, data_fim) ← periodo_de_analise periodo;
      df_subsistemas ← load_data client subsistemas_query;
      subsistemas_selecionados ←
        match df_subsistemas with
        | _ :: _ =>
            let subsistemas_disponíveis := df_subsistemas in
            mret (multiselect amb subsistemas_disponíveis
                    (padrao_multiselect subsistemas_disponíveis))
        | [] =>
            emitir (st_error "Não foi possível carregar os subsistemas");;
            st_stop
        end;
      match subsistemas_selecionados with
      | _ :: _ =>
          df ← load_data client
                 (query_principal data_inicio data_fim subsistemas_selecionados);
          match df with
          | [] =>
              emitir (st_warning "Nenhum dado encontrado para o período selecionado");;
              st_stop
          | _ :: _ => mret tt
          end;;
          metricas df;;
          emitir (st_markdown "---");;
          emitir (st_subheader "📈 Curva de Carga por Subsistema");;
          emitir (st_plotly_chart
                    (curva_de_carga (Set1 amb) df subsistemas_selecionados));;
          emitir (st_expander "ℹ️ Informações dos Dados"
                    {| info_periodo := (data_inicio, data_fim);
                       info_subsistemas := subsistemas_selecionados;
                       info_total_de_registros := length df |})
      | [] =>
          emitir (st_warning
                    "Selecione pelo menos um subsistema para visualizar os dados")
      end;;
      emitir (st_markdown "---");;
      emitir (st_markdown rodape)
  end.

(** Whether an event is the main data query. *)
Definition consulta_principal (e : Evento) : bool :=
  match e with
  | @client_query_df _ q =>
      match q with
      | query_principal _ _ _ => true
      | subsistemas_query => false
      end
  | _ => false
  end.

(** The tuple the date picker returns in this pass. *)
Definition periodo (amb : Ambiente) : list Data :=
  date_input amb (timedelta_days (hoje amb) 7, hoje amb).

(** The pass is connected to client [c], reads the window
    [data_inicio .. data_fim] off the picker, gets a catalogue with at
    least one label and leaves the multiselect with [selecionados]:
    the conditions of lines 50, 66-69 and 81 under which line 93 is
    reached. *)
Definition chega_a_selecao (amb : Ambiente) (c : Client)
    (data_inicio data_fim : Data) (selecionados : list string) : Prop :=
  get_client amb = inr c /\
  periodo_de_analise (periodo amb) = ([], inr (data_inicio, data_fim)) /\
  exists disponiveis : list string,
    query_df c subsistemas_query = inr disponiveis /\
    disponiveis <> [] /\
    multiselect amb disponiveis (padrao_multiselect disponiveis) = selecionados.

(** What every connected pass with a readable window shows and asks
    before line 81. *)
Definition cabecalho : list Evento :=
  [ st_title "⚡ Dashboard Balanço Energético ONS";
    st_markdown "**Sistema Elétrico Brasileiro - Dados Semi-horários**";
    st_sidebar_header "📊 Filtros";
    client_query_df subsistemas_query ].

(** What a pass that renders shows after the metrics. *)
Definition grafico_e_rodape (amb : Ambiente) (data_inicio data_fim : Data)
    (selecionados : list string) (df : list Linha) : list Evento :=
  [ st_markdown "---";
    st_subheader "📈 Curva de Carga por Subsistema";
    st_plotly_chart (curva_de_carga (Set1 amb) df selecionados);
    st_expander "ℹ️ Informações dos Dados"
      {| info_periodo := (data_inicio, data_fim);
         info_subsistemas := selecionados;
         info_total_de_registros := length df |};
    st_markdown "---";
    st_markdown rodape ].

(** The series the loop of lines 156-169 adds for [subsistemas] when
    the first of them has index [i]: one for each subsystem with a row
    in the frame, in order. *)
Fixpoint series (cores : list string) (df : list Linha) (i : nat)
    (subsistemas : list string) : list go.Scatter :=
  match subsistemas with
  | [] => []
  | subsistema :: resto =>
      match df_sub df subsistema with
      | [] => series cores df (S i) resto
      | _ :: _ => trace cores df i subsistema :: series cores df (S i) resto
      end
  end.

(** Whether the pass ended before its last line ([st.stop()] or an
    uncaught exception). *)
Definition interrompido {A : Type} (s : Script A) : bool :=
  match resultado s with
  | inl _ => true
  | inr _ => false
  end.

(** The largest finite [Float64] is 2^1024 - 2^971; past it a sum is
    [inf], and [inf / inf] is NaN. A sum of non-negative values whose
    exact value is at most 2^1023 is finite when computed in [Float64]
    too (rounding adds a relative error far below one half), so up to
    this limit the rationals stand for values the code computes. *)
Definition limite_float64 : Q := inject_Z (2 ^ 1023).

(** Whether an event is a query asked for through [load_data]. *)
Definition e_consulta (e : Evento) : bool :=
  match e with
  | client_query_df _ => true
  | _ => false
  end.

(** What a pass shows before it reads the date picker. *)
Definition abertura : list Evento :=
  [ st_title "⚡ Dashboard Balanço Energético ONS";
    st_markdown "**Sistema Elétrico Brasileiro - Dados Semi-horários**";
    st_sidebar_header "📊 Filtros" ].

(** The number of points a figure draws, all series together. *)
Definition pontos (fig : go.Figure) : nat :=
  sum_list_with (fun t => length (go.x t)) (go.data fig).

(** Whether an event is a metric, a metric with no number to show
    (NaN), or the chart. *)
Definition e_metrica (e : Evento) : bool :=
  match e with
  | st_metric _ _ _ => true
  | _ => false
  end.

Definition metrica_sem_valor (e : Evento) : bool :=
  match e with
  | st_metric _ None _ => true
  | _ => false
  end.

Definition e_grafico (e : Evento) : bool :=
  match e with
  | st_plotly_chart _ => true
  | _ => false
  end.

(** ** Sample data

    A small table and a few environments, used to run the model on
    concrete inputs. Dates are day numbers (19723 is 2024-01-01) and
    instants are seconds (1704067200 is 2024-01-01 00:00). *)

Module Exemplo.

(** plotly's [px.colors.qualitative.Set1]. *)
Definition plotly_Set1 : list string :=
  ["rgb(228,26,28)"; "rgb(55,126,184)"; "rgb(77,175,74)";
   "rgb(152,78,163)"; "rgb(255,127,0)"; "rgb(255,255,51)";
   "rgb(166,86,40)"; "rgb(247,129,191)"; "rgb(153,153,153)"].

(** Two half-hours of SE/CO and one of S on 2024-01-01, one record of
    N a month earlier, and one record with an empty label. *)
Definition registros : list Registro :=
  [ mkRegistro 19723 1704067200 "SE/CO" 1000 (Some 600) (Some 200) (Some 100) None;
    mkRegistro 19723 1704067200 "S" 500 (Some 300) None (Some 150) (Some 50);
    mkRegistro 19723 1704069000 "SE/CO" 2000 (Some 1200) (Some 500) None (Some 100);
    mkRegistro 19692 1701388800 "N" 700 (Some 700) None None None;
    mkRegistro 19723 1704067200 "" 1 None None None None ].

(** A client on which every query answers. *)
Definition cliente : Client :=
  {| tabela := registros; falha := fun _ _ => None |}.

(** A client whose catalogue query answers and whose main query raises. *)
Definition cliente_falha_principal : Client :=
  {| tabela := registros;
     falha := fun _ q =>
       match q with
       | subsistemas_query => None
       | query_principal _ _ _ => Some "Code: 60. UNKNOWN_TABLE"
       end |}.

(** A client with no record at all. *)
Definition cliente_vazio : Client :=
  {| tabela := []; falha := fun _ _ => None |}.

(** The untouched page on 2024-01-07: the picker and the multiselect
    return their defaults. *)
Definition ambiente : Ambiente :=
  {| get_client := inr cliente;
     hoje := 19729;
     date_input := fun p => [p.1; p.2];
     multiselect := fun _ padrao => padrao;
     Set1 := plotly_Set1 |}.

(** The same page with another client, picker answer or selection. *)
Definition com_cliente (c : Client) (amb : Ambiente) : Ambiente :=
  {| get_client := inr c; hoje := hoje amb; date_input := date_input amb;
     multiselect := multiselect amb; Set1 := Set1 amb |}.

Definition com_periodo (p : list Data) (amb : Ambiente) : Ambiente :=
  {| get_client := get_client amb; hoje := hoje amb; date_input := fun _ => p;
     multiselect := multiselect amb; Set1 := Set1 amb |}.

Definition com_selecao (sel : list string) (amb : Ambiente) : Ambiente :=
  {| get_client := get_client amb; hoje := hoje amb; date_input := date_input amb;
     multiselect := fun _ _ => sel; Set1 := Set1 amb |}.

(** 2024-01-01, the one date a picker in mid-selection returns. *)
Definition dia : Data := 19723.

(** The multiselect after the user has removed every label. *)
Definition multiselect_vazio : list string := [].

(** One record with a negative thermal value, and one whose only
    generation value is negative. *)
Definition registros_termica_negativa : list Registro :=
  [ mkRegistro 19723 1704067200 "S" 500 (Some 10) (Some (-5)) None None ].


Definition cliente_termica_negativa : Client :=
  {| tabela := registros_termica_negativa; falha := fun _ _ => None |}.


(** The rows the main query returns for them. *)
Definition linhas_termica_negativa : list Linha :=
  [ mkLinha 1704067200 "S" 500 10 (-5) 0 0 (10 + -5 + 0 + 0) ].


End Exemplo.

(** Settles [chega_a_selecao] on a sample page whose catalogue is
    [cat], by running the model. *)
Ltac chega_com cat :=
  split; [reflexivity|]; split; [reflexivity|];
  exists cat; split; [vm_compute; reflexivity|];
  split; [discriminate|reflexivity].

(** * Properties *)

(** ** The queries on a table *)

Section Consultas.

Implicit Types (t : list Registro) (r : Registro) (l : Linha) (s : string).

Lemma executar_subsistemas_perm t :
  executar subsistemas_query t ≡ₚ
  remove_dups (filter (fun s : string => s <> "") (nom_subsistema_reg <$> t)).
Proof. apply merge_sort_Permutation. Qed.

Lemma elem_of_executar_subsistemas t s :
  s ∈ executar subsistemas_query t <->
  s <> "" /\ exists r, r ∈ t /\ nom_subsistema_reg r = s.
Proof.
  rewrite executar_subsistemas_perm, elem_of_remove_dups.
  rewrite list_elem_of_filter, list_elem_of_fmap.
  split.
  - intros [Hne (r & -> & Hr)]. eauto.
  - intros [Hne (r & Hr & <-)]. eauto.
Qed.

Lemma NoDup_executar_subsistemas t : NoDup (executar subsistemas_query t).
Proof.
  rewrite executar_subsistemas_perm. apply NoDup_remove_dups.
Qed.

(** A list sorted by an antisymmetric order and free of duplicates
    is strictly sorted. *)
Lemma StronglySorted_strict {A} (R : relation A) `{!AntiSymm (=) R}
    (xs : list A) :
  StronglySorted R xs -> NoDup xs -> StronglySorted (strict R) xs.
Proof.
  induction 1 as [|a xs Hs IH Hall]; intros Hnd; [constructor|].
  apply NoDup_cons in Hnd as [Hnotin Hnd].
  constructor; [auto|].
  rewrite Forall_forall in Hall |- *. intros b Hb.
  split; [auto|]. intros Hba.
  apply Hnotin. by rewrite (anti_symm R a b (Hall b Hb) Hba).
Qed.

Lemma executar_subsistemas_ordenado t :
  StronglySorted (strict String.le) (executar subsistemas_query t).
Proof.
  apply StronglySorted_strict; [apply _| |apply NoDup_executar_subsistemas].
  apply StronglySorted_merge_sort; apply _.
Qed.

Lemma elem_of_executar_principal t d1 d2 sel l :
  l ∈ executar (query_principal d1 d2 sel) t <->
  exists r, r ∈ t /\ onde_principal d1 d2 sel r /\ l = selecionar r.
Proof.
  simpl. rewrite merge_sort_Permutation, list_elem_of_fmap.
  split.
  - intros (r & -> & Hr). apply list_elem_of_filter in Hr as [Hw Hr]. eauto.
  - intros (r & Hr & Hw & ->). exists r. split; [done|].
    by apply list_elem_of_filter.
Qed.

Lemma selecionar_total r :
  geracao_total (selecionar r) =
  geracao_hidraulica (selecionar r) + geracao_termica (selecionar r) +
  geracao_eolica (selecionar r) + geracao_solar (selecionar r).
Proof. reflexivity. Qed.

End Consultas.

(** C7. When the catalogue query answers, what the filter resolver gets
    is the set of labels of the table with the empty label left out:
    strictly ascending (so without duplicates), and a label is in it
    exactly when it is not empty and some record carries it. *)
Theorem C7_subsistemas_distintos_ordenados (c : Client) (subsistemas : list string) :
  query_df c subsistemas_query = inr subsistemas ->
  StronglySorted (strict String.le) subsistemas /\
  NoDup subsistemas /\
  ("" ∉ subsistemas) /\
  (forall s : string,
     s ∈ subsistemas <->
     s <> "" /\ exists r, r ∈ tabela c /\ nom_subsistema_reg r = s) /\
  load_data c subsistemas_query =
    ([client_query_df subsistemas_query], inr subsistemas).
Proof.
  unfold load_data, query_df.
  destruct (falha c string subsistemas_query) as [e|] eqn:Hf; [discriminate|].
  intros [= <-]. split; [apply executar_subsistemas_ordenado|].
  split; [apply NoDup_executar_subsistemas|].
  split; [|split; [apply elem_of_executar_subsistemas|reflexivity]].
  intros [Hne _]%elem_of_executar_subsistemas. by apply Hne.
Qed.

Lemma C7_subsistemas_exemplo :
  let subsistemas := ["N"; "S"; "SE/CO"] in
  query_df Exemplo.cliente subsistemas_query = inr subsistemas /\
  (StronglySorted (strict String.le) subsistemas /\
   NoDup subsistemas /\
   ("" ∉ subsistemas) /\
   (forall s : string,
      s ∈ subsistemas <->
      s <> "" /\
      exists r, r ∈ tabela Exemplo.cliente /\ nom_subsistema_reg r = s) /\
   load_data Exemplo.cliente subsistemas_query =
     ([client_query_df subsistemas_query], inr subsistemas)).
Proof.
  split; [vm_compute; reflexivity|].
  apply (C7_subsistemas_distintos_ordenados Exemplo.cliente ["N"; "S"; "SE/CO"]).
  vm_compute; reflexivity.
Defined.

(** ** The data-loading operation *)

Lemma load_data_ok (c : Client) {R : Type} (q : Query R) (df : list R) :
  query_df c q = inr df ->
  load_data c q = ([client_query_df q], inr df).
Proof. unfold load_data. by intros ->. Qed.

Lemma load_data_falha (c : Client) {R : Type} (q : Query R) (e : string) :
  query_df c q = inl e ->
  load_data c q =
    ([client_query_df q; st_error ("Erro na consulta: " ++ e)], inr []).
Proof. unfold load_data. by intros ->. Qed.

Lemma load_data_devolve (c : Client) {R : Type} (q : Query R) :
  exists df,
    load_data c q =
      (client_query_df q ::
       match query_df c q with
       | inl e => [st_error ("Erro na consulta: " ++ e)]
       | inr _ => []
       end, inr df).
Proof.
  destruct (query_df c q) as [e|df] eqn:Hq.
  - exists []. by apply load_data_falha.
  - exists df. by apply load_data_ok.
Qed.

Lemma filter_consulta_principal_nil (tr : list Evento) :
  Forall (fun e => consulta_principal e = false) tr ->
  filter (fun e => consulta_principal e) tr = [].
Proof.
  induction 1 as [|e tr He _ IH]; [done|].
  rewrite filter_cons_False; [done|]. rewrite He. exact id.
Qed.

(** C8. Whatever frame the data-loading operation hands back for the
    main query, each of its rows is the row of a record of the table
    that passes the filter: each of its four generation columns holds
    the record's component when that component is present and zero when
    it is absent, and its total is the sum of those four columns. When
    the query answers, every record that passes the filter has its row
    in the frame. *)
Theorem C8_geracao_total_soma_coalescida (c : Client) (data_inicio data_fim : Data)
    (subsistemas : list string) :
  exists tr df,
    load_data c (query_principal data_inicio data_fim subsistemas) = (tr, inr df) /\
    Forall (fun l : Linha =>
      geracao_total l =
        geracao_hidraulica l + geracao_termica l +
        geracao_eolica l + geracao_solar l /\
      exists r : Registro, r ∈ tabela c /\
        (data_inicio <= data_ref r <= data_fim)%Z /\
        nom_subsistema_reg r ∈ subsistemas /\
        din_instante l = din_instante_reg r /\
        nom_subsistema l = nom_subsistema_reg r /\
        val_carga l = val_carga_reg r /\
        geracao_hidraulica l =
          match val_gerhidraulica r with Some v => v | None => 0 end /\
        geracao_termica l =
          match val_gertermica r with Some v => v | None => 0 end /\
        geracao_eolica l =
          match val_gereolica r with Some v => v | None => 0 end /\
        geracao_solar l =
          match val_gersolar r with Some v => v | None => 0 end) df /\
    (falha c Linha (query_principal data_inicio data_fim subsistemas) = None ->
     forall r : Registro,
       r ∈ tabela c ->
       (data_inicio <= data_ref r <= data_fim)%Z ->
       nom_subsistema_reg r ∈ subsistemas ->
       exists l : Linha,
         l ∈ df /\
         din_instante l = din_instante_reg r /\
         nom_subsistema l = nom_subsistema_reg r /\
         geracao_total l =
           match val_gerhidraulica r with Some v => v | None => 0 end +
           match val_gertermica r with Some v => v | None => 0 end +
           match val_gereolica r with Some v => v | None => 0 end +
           match val_gersolar r with Some v => v | None => 0 end).
Proof.
  destruct (query_df c (query_principal data_inicio data_fim subsistemas))
    as [e|df] eqn:Hq.
  - eexists _, []. split; [by apply load_data_falha|]. split; [constructor|].
    intros Hf. unfold query_df in Hq. by rewrite Hf in Hq.
  - exists [client_query_df (query_principal data_inicio data_fim subsistemas)], df.
    split; [by apply load_data_ok|].
    unfold query_df in Hq. destruct (falha _ _ _); [discriminate|].
    injection Hq as <-. split.
    + apply Forall_forall. intros l Hl.
      apply elem_of_executar_principal in Hl as (r & Hr & (H1 & H2 & H3) & ->).
      split; [apply selecionar_total|]. exists r.
      split; [done|]. split; [done|]. split; [done|]. by repeat split.
    + intros _ r Hr [H1 H2] H3. exists (selecionar r). split; [|by repeat split].
      apply elem_of_executar_principal. exists r. by repeat split.
Qed.

(** The S row of the sample table: hydro 300, no thermal component,
    wind 150, solar 50, total 500. *)
Lemma C8_geracao_total_exemplo :
  let q := query_principal 19722 19729 ["S"] in
  exists df,
    resultado (load_data Exemplo.cliente q) = inr df /\
    (geracao_hidraulica <$> df = [300] /\ geracao_termica <$> df = [0] /\
     geracao_eolica <$> df = [150] /\ geracao_solar <$> df = [50] /\
     geracao_total <$> df = [500]) /\
    Forall (fun l : Linha =>
      geracao_total l =
        geracao_hidraulica l + geracao_termica l +
        geracao_eolica l + geracao_solar l) df.
Proof.
  intros q. unfold q. clear q.
  destruct (C8_geracao_total_soma_coalescida Exemplo.cliente 19722 19729 ["S"])
    as (tr & df & Hl & Hall & _).
  exists df. split; [by rewrite Hl|].
  split; [injection Hl as _ <-; by vm_compute|].
  eapply Forall_impl; [exact Hall|]. by intros l [Ht _].
Defined.

(** ** Aggregations *)

Section Agregacoes.

Context {A : Type}.
Implicit Types (f g : A -> Q) (xs : list A) (c : list Q) (v w : Q).

Lemma pd_add_fmap f g xs :
  pd.add (f <$> xs) (g <$> xs) = (fun a => f a + g a) <$> xs.
Proof.
  unfold pd.add. induction xs as [|a xs IH]; [done|].
  csimpl. f_equal. exact IH.
Qed.

Lemma pd_sum_le f g xs :
  Forall (fun a => f a <= g a) xs -> pd.sum (f <$> xs) <= pd.sum (g <$> xs).
Proof.
  induction 1 as [|a xs Ha _ IH]; simpl; [apply Qle_refl|].
  by apply Qplus_le_compat.
Qed.

Lemma pd_sum_nonneg f xs :
  Forall (fun a => 0 <= f a) xs -> 0 <= pd.sum (f <$> xs).
Proof.
  induction 1 as [|a xs Ha _ IH]; simpl; [apply Qle_refl|].
  change 0 with (0 + 0). by apply Qplus_le_compat.
Qed.




End Agregacoes.


(** ** The pass as a whole *)

Section Passo.

Variables (amb : Ambiente) (c : Client) (data_inicio data_fim : Data)
  (selecionados : list string).
Hypothesis Hchega : chega_a_selecao amb c data_inicio data_fim selecionados.

(** With no subsystem selected the pass warns, skips lines 94-216 and
    goes on to the footer. *)
Lemma main_sem_selecao :
  selecionados = [] ->
  main amb =
    (cabecalho ++
     [ st_warning "Selecione pelo menos um subsistema para visualizar os dados";
       st_markdown "---"; st_markdown rodape ], inr tt).
Proof.
  destruct Hchega as (Hc & Hp & cat & Hcat & Hne & Hsel). intros ->.
  unfold main, init_clickhouse_connection. rewrite Hc.
  unfold periodo in Hp. simpl. rewrite Hp.
  rewrite (load_data_ok _ _ _ Hcat).
  destruct cat as [|s cat]; [done|]. simpl. rewrite Hsel. reflexivity.
Qed.

(** With a selection, the pass asks for the window and either stops
    on an empty frame or renders. *)
Lemma main_com_selecao (tr : list Evento) (df : list Linha) :
  selecionados <> [] ->
  load_data c (query_principal data_inicio data_fim selecionados) = (tr, inr df) ->
  main amb =
    match df with
    | [] =>
        (cabecalho ++ tr ++
         [st_warning "Nenhum dado encontrado para o período selecionado"],
         inl Stop)
    | _ :: _ =>
        (cabecalho ++ tr ++ eventos (metricas df) ++
         grafico_e_rodape amb data_inicio data_fim selecionados df, inr tt)
    end.
Proof.
  destruct Hchega as (Hc & Hp & cat & Hcat & Hne & Hsel). intros Hs Hq.
  unfold main, init_clickhouse_connection. rewrite Hc.
  unfold periodo in Hp. simpl. rewrite Hp.
  rewrite (load_data_ok _ _ _ Hcat).
  destruct cat as [|s cat]; [done|]. simpl. rewrite Hsel.
  destruct selecionados as [|s1 sel]; [done|]. rewrite Hq.
  destruct df as [|l df]; simpl; [reflexivity|].
  rewrite <- !app_assoc. reflexivity.
Qed.

End Passo.

Lemma periodo_de_analise_nao_vazio (p : list Data) :
  p <> [] ->
  exists data_inicio data_fim,
    periodo_de_analise p = ([], inr (data_inicio, data_fim)).
Proof.
  destruct p as [|d1 [|d2 [|d3 p]]]; [done|eauto..].
Qed.

Lemma sem_consulta_principal_cabecalho :
  Forall (fun e => consulta_principal e = false) cabecalho.
Proof. repeat constructor. Qed.

(** C3 (amended). When the multiselect is left empty the pass shows
    the "select at least one subsystem" warning and asks the database
    for nothing but the catalogue; it is not stopped there: it runs on
    to the footer and ends normally. *)
Theorem C3_selecao_vazia_avisa_sem_consultar (amb : Ambiente) (c : Client)
    (data_inicio data_fim : Data) :
  chega_a_selecao amb c data_inicio data_fim [] ->
  main amb =
    (cabecalho ++
     [ st_warning "Selecione pelo menos um subsistema para visualizar os dados";
       st_markdown "---"; st_markdown rodape ], inr tt) /\
  Forall (fun e => consulta_principal e = false) (eventos (main amb)) /\
  interrompido (main amb) = false.
Proof.
  intros H. rewrite (main_sem_selecao _ _ _ _ _ H eq_refl).
  split; [reflexivity|]. split; [|reflexivity].
  unfold eventos. simpl. repeat constructor.
Qed.

Lemma C3_selecao_vazia_exemplo :
  let amb := Exemplo.com_selecao [] Exemplo.ambiente in
  chega_a_selecao amb Exemplo.cliente 19722 19729 [] /\
  (main amb =
     (cabecalho ++
      [ st_warning "Selecione pelo menos um subsistema para visualizar os dados";
        st_markdown "---"; st_markdown rodape ], inr tt) /\
   Forall (fun e => consulta_principal e = false) (eventos (main amb)) /\
   interrompido (main amb) = false).
Proof.
  assert (H : chega_a_selecao (Exemplo.com_selecao [] Exemplo.ambiente)
                Exemplo.cliente 19722 19729 []).
  { chega_com ["N"; "S"; "SE/CO"]. }
  split; [exact H|].
  exact (C3_selecao_vazia_avisa_sem_consultar _ _ _ _ H).
Defined.

(** The pass with an empty selection is not interrupted: its last
    event is the footer. *)
Lemma C3_selecao_vazia_nao_interrompe :
  Exemplo.multiselect_vazio = [] /\
  chega_a_selecao (Exemplo.com_selecao Exemplo.multiselect_vazio Exemplo.ambiente)
    Exemplo.cliente 19722 19729 [] /\
  interrompido
    (main (Exemplo.com_selecao Exemplo.multiselect_vazio Exemplo.ambiente)) = false /\
  last (eventos
    (main (Exemplo.com_selecao Exemplo.multiselect_vazio Exemplo.ambiente))) =
    Some (st_markdown rodape).
Proof.
  split; [reflexivity|]. split; [|split; vm_compute; reflexivity].
  chega_com ["N"; "S"; "SE/CO"].
Qed.

(** C5. When the catalogue query answers with no row, the pass shows
    the "could not load the subsystems" error and stops: the only query
    it has issued is the catalogue one, never the main one. *)
Theorem C5_catalogo_vazio_para_antes_da_consulta (amb : Ambiente) (c : Client) :
  get_client amb = inr c ->
  periodo amb <> [] ->
  query_df c subsistemas_query = inr [] ->
  main amb =
    (cabecalho ++ [st_error "Não foi possível carregar os subsistemas"],
     inl Stop) /\
  Forall (fun e => consulta_principal e = false) (eventos (main amb)).
Proof.
  intros Hc Hp Hcat.
  destruct (periodo_de_analise_nao_vazio _ Hp) as (d1 & d2 & Hd).
  assert (Hm : main amb =
    (cabecalho ++ [st_error "Não foi possível carregar os subsistemas"],
     inl Stop)).
  { unfold main, init_clickhouse_connection. rewrite Hc.
    unfold periodo in Hd. simpl. rewrite Hd.
    rewrite (load_data_ok _ _ _ Hcat). reflexivity. }
  split; [exact Hm|]. rewrite Hm. unfold eventos. simpl. repeat constructor.
Qed.

Lemma C5_catalogo_vazio_exemplo :
  let amb := Exemplo.com_cliente Exemplo.cliente_vazio Exemplo.ambiente in
  (get_client amb = inr Exemplo.cliente_vazio /\
   periodo amb <> [] /\
   query_df Exemplo.cliente_vazio subsistemas_query = inr []) /\
  (main amb =
     (cabecalho ++ [st_error "Não foi possível carregar os subsistemas"],
      inl Stop) /\
   Forall (fun e => consulta_principal e = false) (eventos (main amb))).
Proof.
  split; [split; [reflexivity|split; [discriminate|reflexivity]]|].
  apply (C5_catalogo_vazio_para_antes_da_consulta
           (Exemplo.com_cliente Exemplo.cliente_vazio Exemplo.ambiente)
           Exemplo.cliente_vazio);
    [reflexivity|discriminate|reflexivity].
Defined.

(** C9. The data-loading operation always hands a frame back to its
    caller; when the query raises it shows the error and hands back the
    empty frame. At line 116 a main query that raised and one that
    answered with no row therefore give the caller the same frame, and
    the pass then shows the same "no data found for the period"
    warning and stops, with no metric and no chart. *)
Theorem C9_load_data_nunca_levanta :
  (forall (c : Client) (R : Type) (q : Query R),
     exists tr df, load_data c q = (tr, inr df)) /\
  (forall (c : Client) (R : Type) (q : Query R) (e : string),
     query_df c q = inl e ->
     load_data c q =
       ([client_query_df q; st_error ("Erro na consulta: " ++ e)], inr [])) /\
  (forall (amb : Ambiente) (c : Client) (data_inicio data_fim : Data)
          (selecionados : list string),
     chega_a_selecao amb c data_inicio data_fim selecionados ->
     selecionados <> [] ->
     let q := query_principal data_inicio data_fim selecionados in
     (query_df c q = inr [] \/ exists e, query_df c q = inl e) ->
     resultado (load_data c q) = inr [] /\
     main amb =
       (cabecalho ++ eventos (load_data c q) ++
        [st_warning "Nenhum dado encontrado para o período selecionado"],
        inl Stop)).
Proof.
  split; [|split].
  - intros c R q. destruct (query_df c q) as [e|df] eqn:Hq.
    + eexists _, _. by apply load_data_falha.
    + eexists _, _. by apply load_data_ok.
  - intros c R q e. apply load_data_falha.
  - intros amb c d1 d2 sel Hchega Hsel q [Hq|[e Hq]].
    + pose proof (load_data_ok _ _ _ Hq) as Hl. rewrite Hl.
      split; [reflexivity|].
      by rewrite (main_com_selecao _ _ _ _ _ Hchega _ _ Hsel Hl).
    + pose proof (load_data_falha _ _ _ Hq) as Hl. rewrite Hl.
      split; [reflexivity|].
      by rewrite (main_com_selecao _ _ _ _ _ Hchega _ _ Hsel Hl).
Qed.

Lemma C9_consulta_falha_exemplo :
  let amb := Exemplo.com_cliente Exemplo.cliente_falha_principal Exemplo.ambiente in
  let q := query_principal 19722 19729 ["N"; "S"; "SE/CO"] in
  query_df Exemplo.cliente_falha_principal q = inl "Code: 60. UNKNOWN_TABLE" /\
  resultado (load_data Exemplo.cliente_falha_principal q) = inr [] /\
  main amb =
    (cabecalho ++ eventos (load_data Exemplo.cliente_falha_principal q) ++
     [st_warning "Nenhum dado encontrado para o período selecionado"],
     inl Stop).
Proof.
  split; [reflexivity|].
  apply (proj2 (proj2 C9_load_data_nunca_levanta)
           (Exemplo.com_cliente Exemplo.cliente_falha_principal Exemplo.ambiente)
           Exemplo.cliente_falha_principal 19722%Z 19729%Z ["N"; "S"; "SE/CO"]).
  - chega_com ["N"; "S"; "SE/CO"].
  - discriminate.
  - right. exists "Code: 60. UNKNOWN_TABLE". reflexivity.
Defined.

(** C10. When the picker gives the single date [d], the window is
    [d .. d]; with a non-empty selection the one main query of the
    pass is built with [d] as both bounds, and the rows it selects are
    those of the records dated [d] whose label is selected. *)
Theorem C10_data_unica_janela_de_um_dia (amb : Ambiente) (c : Client) (d : Data)
    (disponiveis selecionados : list string) :
  get_client amb = inr c ->
  periodo amb = [d] ->
  query_df c subsistemas_query = inr disponiveis ->
  disponiveis <> [] ->
  multiselect amb disponiveis (padrao_multiselect disponiveis) = selecionados ->
  selecionados <> [] ->
  periodo_de_analise (periodo amb) = ([], inr (d, d)) /\
  filter (fun e => consulta_principal e) (eventos (main amb)) =
    [client_query_df (query_principal d d selecionados)] /\
  (forall l : Linha,
     l ∈ executar (query_principal d d selecionados) (tabela c) <->
     exists r : Registro,
       r ∈ tabela c /\ data_ref r = d /\
       nom_subsistema_reg r ∈ selecionados /\ l = selecionar r).
Proof.
  intros Hc Hp Hcat Hne Hsel Hs.
  assert (Hd : periodo_de_analise (periodo amb) = ([], inr (d, d)))
    by (rewrite Hp; reflexivity).
  assert (Hchega : chega_a_selecao amb c d d selecionados)
    by (split; [done|split; [done|by exists disponiveis]]).
  split; [exact Hd|]. split.
  - set (q := query_principal d d selecionados).
    destruct (load_data_devolve c q) as (df & Hl).
    rewrite (main_com_selecao _ _ _ _ _ Hchega _ _ Hs Hl).
    assert (Hq : filter (fun e => consulta_principal e)
                   (client_query_df q ::
                    match query_df c q with
                    | inl e => [st_error ("Erro na consulta: " ++ e)]
                    | inr _ => []
                    end) = [client_query_df q]).
    { rewrite filter_cons_True by done. f_equal.
      apply filter_consulta_principal_nil.
      destruct (query_df c q); repeat constructor. }
    destruct df as [|l df]; unfold eventos; cbn [fst];
      rewrite !filter_app, Hq;
      rewrite (filter_consulta_principal_nil cabecalho)
        by apply sem_consulta_principal_cabecalho;
      rewrite !filter_consulta_principal_nil by repeat constructor;
      reflexivity.
  - intros l. rewrite elem_of_executar_principal. unfold onde_principal.
    split.
    + intros (r & Hr & (H1 & H2 & H3) & ->). exists r.
      repeat split; [done|lia|done].
    + intros (r & Hr & <- & H3 & ->). exists r.
      repeat split; [done|lia|lia|done].
Qed.

Lemma C10_data_unica_exemplo :
  let amb := Exemplo.com_periodo [Exemplo.dia] Exemplo.ambiente in
  let sel := ["N"; "S"; "SE/CO"] in
  (get_client amb = inr Exemplo.cliente /\
   periodo amb = [Exemplo.dia] /\
   query_df Exemplo.cliente subsistemas_query = inr sel /\
   sel <> [] /\
   multiselect amb sel (padrao_multiselect sel) = sel) /\
  periodo_de_analise (periodo amb) = ([], inr (Exemplo.dia, Exemplo.dia)) /\
  filter (fun e => consulta_principal e) (eventos (main amb)) =
    [client_query_df (query_principal Exemplo.dia Exemplo.dia sel)] /\
  (forall l : Linha,
     l ∈ executar (query_principal Exemplo.dia Exemplo.dia sel) (tabela Exemplo.cliente) <->
     exists r : Registro,
       r ∈ tabela Exemplo.cliente /\ data_ref r = Exemplo.dia /\
       nom_subsistema_reg r ∈ sel /\ l = selecionar r).
Proof.
  split.
  - repeat split; try discriminate.
  - apply (C10_data_unica_janela_de_um_dia
             (Exemplo.com_periodo [Exemplo.dia] Exemplo.ambiente) Exemplo.cliente
             Exemplo.dia ["N"; "S"; "SE/CO"] ["N"; "S"; "SE/CO"]);
      try reflexivity; discriminate.
Defined.

(** ** The renewable share *)

Lemma geracao_renovavel_por_linha (df : list Linha) :
  geracao_renovavel df =
  pd.sum ((fun l => geracao_hidraulica l + geracao_eolica l + geracao_solar l)
            <$> df).
Proof. unfold geracao_renovavel. by rewrite !pd_add_fmap. Qed.

(** The rows [load_data] hands back for the main query are rows the
    SELECT list makes of records that pass the WHERE clause. *)
Lemma linhas_de_load_data (c : Client) (d1 d2 : Data) (sel : list string)
    (df : list Linha) :
  resultado (load_data c (query_principal d1 d2 sel)) = inr df ->
  Forall (fun l => exists r, r ∈ tabela c /\ onde_principal d1 d2 sel r /\
                             l = selecionar r) df.
Proof.
  destruct (query_df c (query_principal d1 d2 sel)) as [e|df'] eqn:Hq.
  - rewrite (load_data_falha _ _ _ Hq). intros [= <-]. constructor.
  - rewrite (load_data_ok _ _ _ Hq). intros [= <-].
    unfold query_df in Hq. destruct (falha _ _ _); [discriminate|].
    injection Hq as <-. apply Forall_forall. intros l Hl.
    by apply elem_of_executar_principal.
Qed.



(** C4 (amended). On a frame handed back for the main query whose four
    generation columns hold no negative value and whose total-generation
    sum stays within the Float64 range, the renewable percentage lies
    between 0 and 100; and on every frame handed back, whatever its
    values, the percentage is 0 when the sum of the total-generation
    column is 0. *)
Theorem C4_renovavel_pct_entre_0_e_100 (c : Client) (data_inicio data_fim : Data)
    (subsistemas : list string) (df : list Linha) :
  resultado (load_data c (query_principal data_inicio data_fim subsistemas))
    = inr df ->
  (Forall (fun l => 0 <= geracao_hidraulica l /\ 0 <= geracao_termica l /\
                    0 <= geracao_eolica l /\ 0 <= geracao_solar l) df ->
   geracao_total_soma df <= limite_float64 ->
   0 <= renovavel_pct df <= 100) /\
  (geracao_total_soma df == 0 -> renovavel_pct df == 0).
Proof.
  intros Hdf. apply linhas_de_load_data in Hdf. split.
  - intros Hpos _.
    assert (Hren : 0 <= geracao_renovavel df).
    { rewrite geracao_renovavel_por_linha. apply pd_sum_nonneg.
      eapply Forall_impl; [exact Hpos|]. simpl. intros l (Hh & _ & He & Hs). lra. }
    assert (Hle : geracao_renovavel df <= geracao_total_soma df).
    { rewrite geracao_renovavel_por_linha. unfold geracao_total_soma.
      apply pd_sum_le. rewrite Forall_forall in Hdf, Hpos |- *.
      intros l Hl. destruct (Hdf l Hl) as (r & _ & _ & Hr).
      destruct (Hpos l Hl) as (_ & Ht & _ & _).
      rewrite Hr in Ht |- *. rewrite selecionar_total. lra. }
    unfold renovavel_pct.
    destruct (Qlt_le_dec 0 (geracao_total_soma df)) as [Ht|Ht]; [|lra].
    assert (H0 : 0 <= geracao_renovavel df / geracao_total_soma df).
    { apply Qle_shift_div_l; [exact Ht|]. lra. }
    assert (H1 : geracao_renovavel df / geracao_total_soma df <= 1).
    { apply Qle_shift_div_r; [exact Ht|]. lra. }
    lra.
  - intros Hz. unfold renovavel_pct.
    destruct (Qlt_le_dec 0 (geracao_total_soma df)) as [Ht|Ht]; [|reflexivity].
    rewrite Hz in Ht. by apply Qlt_irrefl in Ht.
Qed.

(** The sample page: 2500 renewable out of 3200, that is 78.125 per cent. *)
Lemma C4_renovavel_pct_exemplo :
  let q := query_principal 19722 19729 ["N"; "S"; "SE/CO"] in
  let df := executar q Exemplo.registros in
  resultado (load_data Exemplo.cliente q) = inr df /\
  Forall (fun l => 0 <= geracao_hidraulica l /\ 0 <= geracao_termica l /\
                   0 <= geracao_eolica l /\ 0 <= geracao_solar l) df /\
  geracao_total_soma df <= limite_float64 /\
  renovavel_pct df == 78125 # 1000 /\
  0 <= renovavel_pct df <= 100.
Proof.
  assert (H : Forall (fun l => 0 <= geracao_hidraulica l /\ 0 <= geracao_termica l /\
                    0 <= geracao_eolica l /\ 0 <= geracao_solar l)
                (executar (query_principal 19722 19729 ["N"; "S"; "SE/CO"])
                   Exemplo.registros)).
  { vm_compute. repeat constructor; discriminate. }
  assert (Hlim : geracao_total_soma
                   (executar (query_principal 19722 19729 ["N"; "S"; "SE/CO"])
                      Exemplo.registros) <= limite_float64).
  { vm_compute. discriminate. }
  split; [reflexivity|]. split; [exact H|]. split; [exact Hlim|].
  split; [vm_compute; reflexivity|].
  exact (proj1 (C4_renovavel_pct_entre_0_e_100 Exemplo.cliente 19722 19729
                  ["N"; "S"; "SE/CO"] _ eq_refl) H Hlim).
Defined.

(** A fetched frame with thermal generation -5 against hydro 10: total
    5, renewable 10, and the metric is 200. *)
Lemma C4_termica_negativa_passa_de_100 :
  query_df Exemplo.cliente_termica_negativa
    (query_principal 19722 19729 ["S"]) = inr Exemplo.linhas_termica_negativa /\
  renovavel_pct Exemplo.linhas_termica_negativa == 200 /\
  100 < renovavel_pct Exemplo.linhas_termica_negativa.
Proof. repeat split. Qed.

(** ** The load curve *)

Section Curva.

Variables (cores : list string) (df : list Linha).

Lemma laco_subsistemas_data (subsistemas : list string) :
  forall (i : nat) (fig : go.Figure),
    go.data (laco_subsistemas cores df i subsistemas fig) =
    go.data fig ++ series cores df i subsistemas.
Proof.
  induction subsistemas as [|s resto IH]; intros i fig; simpl.
  - by rewrite app_nil_r.
  - rewrite IH. destruct (df_sub df s); [done|].
    simpl. by rewrite <- app_assoc.
Qed.

Lemma curva_de_carga_data (selecionados : list string) :
  go.data (curva_de_carga cores df selecionados) = series cores df 0 selecionados.
Proof.
  unfold curva_de_carga. simpl. by rewrite laco_subsistemas_data.
Qed.

Lemma series_name (subsistemas : list string) :
  forall i : nat,
    go.name <$> series cores df i subsistemas =
    filter (fun s => df_sub df s <> []) subsistemas.
Proof.
  induction subsistemas as [|s resto IH]; intros i; simpl; [done|].
  destruct (df_sub df s) as [|l ls] eqn:Hs.
  - rewrite filter_cons_False by (rewrite Hs; auto). apply IH.
  - rewrite filter_cons_True by (rewrite Hs; discriminate).
    csimpl. by rewrite IH.
Qed.

Lemma elem_of_series (subsistemas : list string) (t : go.Scatter) :
  forall i : nat,
    t ∈ series cores df i subsistemas <->
    exists j s, subsistemas !! j = Some s /\ df_sub df s <> [] /\
                t = trace cores df (i + j) s.
Proof.
  induction subsistemas as [|s resto IH]; intros i; simpl.
  - split; [by intros ?%elem_of_nil|]. by intros (j & s & ? & _).
  - assert (Hresto :
      t ∈ series cores df (S i) resto <->
      exists j s', (s :: resto) !! S j = Some s' /\ df_sub df s' <> [] /\
                   t = trace cores df (i + S j) s').
    { rewrite IH. by setoid_rewrite Nat.add_succ_r. }
    destruct (df_sub df s) as [|l ls] eqn:Hs.
    + rewrite Hresto. split.
      * intros (j & s' & ?). by exists (S j), s'.
      * intros ([|j] & s' & Hj & Hne & Ht); [|by exists j, s'].
        simpl in Hj. injection Hj as <-. by rewrite Hs in Hne.
    + rewrite elem_of_cons, Hresto. split.
      * intros [->|(j & s' & ?)]; [|by exists (S j), s'].
        exists 0%nat, s. rewrite Nat.add_0_r, Hs. by repeat split.
      * intros ([|j] & s' & Hj & Hne & Ht); [|right; by exists j, s'].
        simpl in Hj. injection Hj as <-. left. by rewrite Nat.add_0_r in Ht.
Qed.

End Curva.

(** C6 (amended). The chart holds, in selection order, one line series
    for each selected subsystem that has at least one row in the
    fetched frame, and none for a selected subsystem without rows; the
    series of the subsystem at selection index i has that subsystem's
    timestamps as x and loads as y, and the palette entry at index
    i modulo the palette size as its colour. *)
Theorem C6_series_dos_subsistemas_com_linhas (cores : list string)
    (df : list Linha) (selecionados : list string) :
  let fig := curva_de_carga cores df selecionados in
  go.name <$> go.data fig = filter (fun s => df_sub df s <> []) selecionados /\
  (forall t : go.Scatter,
     t ∈ go.data fig <->
     exists (i : nat) (s : string),
       selecionados !! i = Some s /\ df_sub df s <> [] /\
       t = trace cores df i s) /\
  (forall (i : nat) (s : string),
     go.name (trace cores df i s) = s /\
     go.mode (trace cores df i s) = "lines" /\
     go.x (trace cores df i s) =
       din_instante <$> filter (fun l => nom_subsistema l = s) df /\
     go.y (trace cores df i s) =
       val_carga <$> filter (fun l => nom_subsistema l = s) df /\
     go.color (go.line (trace cores df i s)) =
       nth (i mod length cores) cores "").
Proof.
  intros fig. unfold fig. rewrite curva_de_carga_data.
  split; [apply series_name|]. split; [|by intros i s].
  intros t. by rewrite elem_of_series.
Qed.

(** The untouched sample page selects N, S and SE/CO; N has no record
    in the window, and the chart shown has two series, S and SE/CO. *)
Lemma C6_subsistema_sem_linhas_sem_serie :
  let sel := ["N"; "S"; "SE/CO"] in
  let df := executar (query_principal 19722 19729 sel) Exemplo.registros in
  query_df Exemplo.cliente subsistemas_query = inr sel /\
  eventos (main Exemplo.ambiente) !! 11%nat =
    Some (st_plotly_chart (curva_de_carga Exemplo.plotly_Set1 df sel)) /\
  length sel = 3%nat /\
  go.name <$> go.data (curva_de_carga Exemplo.plotly_Set1 df sel) = ["S"; "SE/CO"] /\
  (go.color ∘ go.line) <$> go.data (curva_de_carga Exemplo.plotly_Set1 df sel) =
    ["rgb(55,126,184)"; "rgb(77,175,74)"].
Proof. vm_compute. repeat split. Qed.

(** ** The demand metrics *)



(** * Further properties of the pass *)

(** ** The early ends *)

Lemma main_sem_conexao (amb : Ambiente) (e : string) :
  get_client amb = inl e ->
  main amb =
    ([ st_title "⚡ Dashboard Balanço Energético ONS";
       st_markdown "**Sistema Elétrico Brasileiro - Dados Semi-horários**";
       st_error ("Erro na conexão com ClickHouse: " ++ e);
       st_info "Configure as credenciais em .streamlit/secrets.toml" ],
     inl Stop).
Proof.
  intros He. unfold main, init_clickhouse_connection. by rewrite He.
Qed.

Lemma main_periodo_vazio (amb : Ambiente) (c : Client) :
  get_client amb = inr c ->
  periodo amb = [] ->
  main amb =
    (abertura, inl (Excecao "IndexError: tuple index out of range")).
Proof.
  intros Hc Hp. unfold main, init_clickhouse_connection. rewrite Hc.
  unfold periodo in Hp. simpl. by rewrite Hp.
Qed.

Lemma main_sem_catalogo (amb : Ambiente) (c : Client) (tr : list Evento) :
  get_client amb = inr c ->
  periodo amb <> [] ->
  load_data c subsistemas_query = (tr, inr []) ->
  main amb =
    (abertura ++ tr ++ [st_error "Não foi possível carregar os subsistemas"],
     inl Stop).
Proof.
  intros Hc Hp Hl.
  destruct (periodo_de_analise_nao_vazio _ Hp) as (d1 & d2 & Hd).
  unfold main, init_clickhouse_connection. rewrite Hc.
  unfold periodo in Hd. simpl. rewrite Hd, Hl. reflexivity.
Qed.

(** Every pass is in one of five situations at line 93 or before. *)
Lemma main_casos (amb : Ambiente) :
  (exists e, get_client amb = inl e) \/
  (exists c, get_client amb = inr c /\ periodo amb = []) \/
  (exists c, get_client amb = inr c /\ periodo amb <> [] /\
             exists e, query_df c subsistemas_query = inl e) \/
  (exists c, get_client amb = inr c /\ periodo amb <> [] /\
             query_df c subsistemas_query = inr []) \/
  (exists c d1 d2 sel, chega_a_selecao amb c d1 d2 sel).
Proof.
  destruct (get_client amb) as [e|c] eqn:Hc; [left; eauto|right].
  destruct (periodo amb) as [|d p] eqn:Hp; [left; eauto|right].
  assert (Hne : periodo amb <> []) by (by rewrite Hp).
  destruct (query_df c subsistemas_query) as [e|[|s cat]] eqn:Hq.
  - left. exists c. eauto.
  - right; left. by exists c.
  - right; right.
    destruct (periodo_de_analise_nao_vazio _ Hne) as (d1 & d2 & Hd).
    exists c, d1, d2,
      (multiselect amb (s :: cat) (padrao_multiselect (s :: cat))).
    split; [done|]. split; [done|]. by exists (s :: cat).
Qed.

(** X1. When the connection cannot be opened the pass shows the
    connection error with its message and the hint about the secrets
    file, and stops: nothing is asked of the database and nothing else
    is shown. *)
Theorem X1_sem_conexao_para_sem_consultar (amb : Ambiente) (e : string) :
  get_client amb = inl e ->
  main amb =
    ([ st_title "⚡ Dashboard Balanço Energético ONS";
       st_markdown "**Sistema Elétrico Brasileiro - Dados Semi-horários**";
       st_error ("Erro na conexão com ClickHouse: " ++ e);
       st_info "Configure as credenciais em .streamlit/secrets.toml" ],
     inl Stop) /\
  filter (fun ev => e_consulta ev) (eventos (main amb)) = [].
Proof.
  intros He. rewrite (main_sem_conexao _ _ He). by split.
Qed.

Lemma X1_sem_conexao_exemplo :
  let amb := {| get_client := inl "KeyError: 'CLICKHOUSE_HOST'";
                hoje := hoje Exemplo.ambiente;
                date_input := date_input Exemplo.ambiente;
                multiselect := multiselect Exemplo.ambiente;
                Set1 := Exemplo.plotly_Set1 |} in
  get_client amb = inl "KeyError: 'CLICKHOUSE_HOST'" /\
  main amb =
    ([ st_title "⚡ Dashboard Balanço Energético ONS";
       st_markdown "**Sistema Elétrico Brasileiro - Dados Semi-horários**";
       st_error "Erro na conexão com ClickHouse: KeyError: 'CLICKHOUSE_HOST'";
       st_info "Configure as credenciais em .streamlit/secrets.toml" ],
     inl Stop) /\
  filter (fun ev => e_consulta ev) (eventos (main amb)) = [].
Proof.
  split; [reflexivity|].
  apply X1_sem_conexao_para_sem_consultar. reflexivity.
Defined.

(** X2. When the date picker hands back an empty tuple, [periodo[0]]
    raises IndexError out of the script: the pass ends on the exception
    right after the sidebar header, before any query. *)
Theorem X2_periodo_vazio_levanta_IndexError (amb : Ambiente) (c : Client) :
  get_client amb = inr c ->
  periodo amb = [] ->
  main amb = (abertura, inl (Excecao "IndexError: tuple index out of range")) /\
  filter (fun ev => e_consulta ev) (eventos (main amb)) = [].
Proof.
  intros Hc Hp. rewrite (main_periodo_vazio _ _ Hc Hp). by split.
Qed.

Lemma X2_periodo_vazio_exemplo :
  let amb := Exemplo.com_periodo [] Exemplo.ambiente in
  (get_client amb = inr Exemplo.cliente /\ periodo amb = []) /\
  main amb = (abertura, inl (Excecao "IndexError: tuple index out of range")) /\
  filter (fun ev => e_consulta ev) (eventos (main amb)) = [].
Proof.
  split; [by split|].
  exact (X2_periodo_vazio_levanta_IndexError
           (Exemplo.com_periodo [] Exemplo.ambiente) Exemplo.cliente
           eq_refl eq_refl).
Defined.

(** X3. When the catalogue query raises, the pass shows two errors, the
    query error with the exception's message and then "could not load
    the subsystems", and stops without ever issuing the main query. *)
Theorem X3_catalogo_falha_dois_erros (amb : Ambiente) (c : Client) (e : string) :
  get_client amb = inr c ->
  periodo amb <> [] ->
  query_df c subsistemas_query = inl e ->
  main amb =
    (cabecalho ++
     [ st_error ("Erro na consulta: " ++ e);
       st_error "Não foi possível carregar os subsistemas" ],
     inl Stop) /\
  filter (fun ev => e_consulta ev) (eventos (main amb)) =
    [client_query_df subsistemas_query].
Proof.
  intros Hc Hp Hq.
  rewrite (main_sem_catalogo _ _ _ Hc Hp (load_data_falha _ _ _ Hq)).
  by split.
Qed.

Lemma X3_catalogo_falha_exemplo :
  let c := {| tabela := Exemplo.registros;
              falha := fun _ _ => Some "Code: 241. MEMORY_LIMIT_EXCEEDED" |} in
  let amb := Exemplo.com_cliente c Exemplo.ambiente in
  (get_client amb = inr c /\ periodo amb <> [] /\
   query_df c subsistemas_query = inl "Code: 241. MEMORY_LIMIT_EXCEEDED") /\
  main amb =
    (cabecalho ++
     [ st_error "Erro na consulta: Code: 241. MEMORY_LIMIT_EXCEEDED";
       st_error "Não foi possível carregar os subsistemas" ],
     inl Stop) /\
  filter (fun ev => e_consulta ev) (eventos (main amb)) =
    [client_query_df subsistemas_query].
Proof.
  intros c amb. split; [by repeat split|].
  apply (X3_catalogo_falha_dois_erros amb c);
    [reflexivity|discriminate|reflexivity].
Defined.

(** ** What every pass does *)

(** X4. Whatever the environment, a pass calls [load_data] for no
    query, or for the catalogue query alone, or for the catalogue query
    and then exactly once for a main query built for a non-empty
    selection: never for the main query first, and never twice for
    either. These calls are all a pass asks for; which of them
    [st.cache_data] answers without going to the database is not part
    of the model. *)
Theorem X4_consultas_de_um_passo (amb : Ambiente) :
  let consultas := filter (fun ev => e_consulta ev) (eventos (main amb)) in
  consultas = [] \/
  consultas = [client_query_df subsistemas_query] \/
  exists (d1 d2 : Data) (sel : list string),
    sel <> [] /\
    consultas = [ client_query_df subsistemas_query;
                  client_query_df (query_principal d1 d2 sel) ].
Proof.
  intros consultas. unfold consultas. clear consultas.
  destruct (main_casos amb)
    as [(e & He)|[(c & Hc & Hp)|[(c & Hc & Hp & e & Hq)|[(c & Hc & Hp & Hq)|
        (c & d1 & d2 & sel & Hchega)]]]].
  - left. by rewrite (main_sem_conexao _ _ He).
  - left. by rewrite (main_periodo_vazio _ _ Hc Hp).
  - right; left.
    by rewrite (main_sem_catalogo _ _ _ Hc Hp (load_data_falha _ _ _ Hq)).
  - right; left.
    by rewrite (main_sem_catalogo _ _ _ Hc Hp (load_data_ok _ _ _ Hq)).
  - destruct sel as [|s sel].
    + right; left. by rewrite (main_sem_selecao _ _ _ _ _ Hchega eq_refl).
    + right; right. exists d1, d2, (s :: sel). split; [done|].
      destruct (load_data_devolve c (query_principal d1 d2 (s :: sel)))
        as (df & Hl).
      rewrite (main_com_selecao _ _ _ _ _ Hchega _ _ ltac:(done) Hl).
      destruct (query_df c (query_principal d1 d2 (s :: sel)));
        by destruct df.
Qed.

(** X5. Whatever the environment, the footer is the last thing a pass
    shows exactly when the pass is not cut short by [st.stop()] or by
    an exception: a stopped pass never reaches the footer. *)
Theorem X5_rodape_sse_nao_interrompido (amb : Ambiente) :
  interrompido (main amb) = false <->
  last (eventos (main amb)) = Some (st_markdown rodape).
Proof.
  destruct (main_casos amb)
    as [(e & He)|[(c & Hc & Hp)|[(c & Hc & Hp & e & Hq)|[(c & Hc & Hp & Hq)|
        (c & d1 & d2 & sel & Hchega)]]]].
  - by rewrite (main_sem_conexao _ _ He).
  - by rewrite (main_periodo_vazio _ _ Hc Hp).
  - by rewrite (main_sem_catalogo _ _ _ Hc Hp (load_data_falha _ _ _ Hq)).
  - by rewrite (main_sem_catalogo _ _ _ Hc Hp (load_data_ok _ _ _ Hq)).
  - destruct sel as [|s sel].
    + by rewrite (main_sem_selecao _ _ _ _ _ Hchega eq_refl).
    + destruct (load_data_devolve c (query_principal d1 d2 (s :: sel)))
        as (df & Hl).
      rewrite (main_com_selecao _ _ _ _ _ Hchega _ _ ltac:(done) Hl).
      destruct (query_df c (query_principal d1 d2 (s :: sel)));
        by destruct df.
Qed.

(** ** The default selection *)

Lemma padrao_multiselect_take (l : list string) :
  padrao_multiselect l = take 3 l.
Proof.
  unfold padrao_multiselect. case_decide; [done|].
  symmetry. apply take_ge. lia.
Qed.

(** The one main query of a pass that reaches line 93 with a selection. *)
Lemma consulta_principal_de_main (amb : Ambiente) (c : Client) (d1 d2 : Data)
    (sel : list string) :
  chega_a_selecao amb c d1 d2 sel ->
  sel <> [] ->
  filter (fun e => consulta_principal e) (eventos (main amb)) =
    [client_query_df (query_principal d1 d2 sel)].
Proof.
  intros Hchega Hsel.
  destruct (load_data_devolve c (query_principal d1 d2 sel)) as (df & Hl).
  rewrite (main_com_selecao _ _ _ _ _ Hchega _ _ Hsel Hl).
  destruct (query_df c (query_principal d1 d2 sel)); by destruct df.
Qed.

(** X6. The default of the multiselect is the first three labels of
    the catalogue, or all of them when there are fewer; it is never
    empty, so a page whose multiselect is left at its default always
    issues the main query, for exactly those labels. *)
Theorem X6_selecao_padrao_tres_primeiros (amb : Ambiente) (c : Client)
    (d1 d2 : Data) (disponiveis : list string) :
  get_client amb = inr c ->
  periodo_de_analise (periodo amb) = ([], inr (d1, d2)) ->
  query_df c subsistemas_query = inr disponiveis ->
  disponiveis <> [] ->
  multiselect amb disponiveis (padrao_multiselect disponiveis) =
    padrao_multiselect disponiveis ->
  padrao_multiselect disponiveis = take 3 disponiveis /\
  length (padrao_multiselect disponiveis) = (3 `min` length disponiveis)%nat /\
  filter (fun e => consulta_principal e) (eventos (main amb)) =
    [client_query_df (query_principal d1 d2 (take 3 disponiveis))].
Proof.
  intros Hc Hp Hq Hne Hm. rewrite padrao_multiselect_take in Hm |- *.
  split; [done|]. split; [apply length_take|].
  apply (consulta_principal_de_main amb c).
  - split; [done|]. split; [done|]. exists disponiveis.
    by rewrite padrao_multiselect_take.
  - by destruct disponiveis.
Qed.

Lemma X6_selecao_padrao_exemplo :
  let amb := Exemplo.ambiente in
  let disponiveis := ["N"; "S"; "SE/CO"] in
  (get_client amb = inr Exemplo.cliente /\
   periodo_de_analise (periodo amb) = ([], inr (19722, 19729)%Z) /\
   query_df Exemplo.cliente subsistemas_query = inr disponiveis /\
   disponiveis <> [] /\
   multiselect amb disponiveis (padrao_multiselect disponiveis) =
     padrao_multiselect disponiveis) /\
  padrao_multiselect disponiveis = take 3 disponiveis /\
  length (padrao_multiselect disponiveis) = (3 `min` length disponiveis)%nat /\
  filter (fun e => consulta_principal e) (eventos (main amb)) =
    [client_query_df (query_principal 19722 19729 (take 3 disponiveis))].
Proof.
  intros amb disponiveis. split; [by repeat split|].
  by apply (X6_selecao_padrao_tres_primeiros amb Exemplo.cliente
              19722%Z 19729%Z disponiveis).
Defined.

(** ** The fetched frame *)

Lemma ordem_principal_total : Total ordem_principal.
Proof.
  intros r1 r2. unfold ordem_principal.
  destruct (Z.lt_trichotomy (din_instante r1) (din_instante r2)) as [?|[?|?]];
    [by left; left| |by right; left].
  destruct (total String.le (nom_subsistema r1) (nom_subsistema r2));
    [left|right]; right; by split.
Qed.

Lemma ordem_principal_trans : Transitive ordem_principal.
Proof.
  intros r1 r2 r3 [H12|[E12 L12]] [H23|[E23 L23]]; unfold ordem_principal.
  - left. lia.
  - left. lia.
  - left. lia.
  - right. split; [lia|]. by etrans.
Qed.

Lemma ordem_principal_instante (r1 r2 : Linha) :
  ordem_principal r1 r2 -> (din_instante r1 <= din_instante r2)%Z.
Proof. intros [?|[? _]]; lia. Qed.

Lemma executar_principal_ordenado (t : list Registro) (d1 d2 : Data)
    (sel : list string) :
  StronglySorted ordem_principal (executar (query_principal d1 d2 sel) t).
Proof.
  apply StronglySorted_merge_sort;
    [apply ordem_principal_trans|apply ordem_principal_total].
Qed.

Lemma query_df_principal_ok (c : Client) (d1 d2 : Data) (sel : list string)
    (df : list Linha) :
  query_df c (query_principal d1 d2 sel) = inr df ->
  df = executar (query_principal d1 d2 sel) (tabela c).
Proof.
  unfold query_df. destruct (falha _ _ _); [discriminate|]. by intros [= <-].
Qed.

(** X7. The frame the main query answers with holds exactly the rows
    the SELECT list makes of the records in the window whose label is
    selected, none lost and none repeated, in ascending order of
    instant and, within an instant, of label. *)
Theorem X7_quadro_ordenado_e_completo (c : Client) (d1 d2 : Data)
    (sel : list string) (df : list Linha) :
  query_df c (query_principal d1 d2 sel) = inr df ->
  StronglySorted ordem_principal df /\
  df ≡ₚ selecionar <$>
         filter (fun r => (d1 <= data_ref r)%Z /\ (data_ref r <= d2)%Z /\
                          nom_subsistema_reg r ∈ sel) (tabela c) /\
  Forall (fun l => nom_subsistema l ∈ sel) df.
Proof.
  intros ->%query_df_principal_ok.
  split; [apply executar_principal_ordenado|]. split.
  - apply merge_sort_Permutation.
  - apply Forall_forall. intros l Hl.
    apply elem_of_executar_principal in Hl as (r & _ & (_ & _ & Hr) & ->).
    exact Hr.
Qed.

Lemma X7_quadro_exemplo :
  let df := executar (query_principal 19722 19729 ["S"; "SE/CO"])
              Exemplo.registros in
  query_df Exemplo.cliente (query_principal 19722 19729 ["S"; "SE/CO"])
    = inr df /\
  (nom_subsistema <$> df = ["S"; "SE/CO"; "SE/CO"] /\
   din_instante <$> df = [1704067200; 1704067200; 1704069000]%Z) /\
  StronglySorted ordem_principal df /\
  df ≡ₚ selecionar <$>
         filter (fun r => (19722 <= data_ref r)%Z /\ (data_ref r <= 19729)%Z /\
                          nom_subsistema_reg r ∈ ["S"; "SE/CO"])
           (tabela Exemplo.cliente) /\
  Forall (fun l => nom_subsistema l ∈ ["S"; "SE/CO"]) df.
Proof.
  intros df. split; [reflexivity|]. split; [by vm_compute|].
  by apply (X7_quadro_ordenado_e_completo Exemplo.cliente).
Defined.

(** ** The chart of a fetched frame *)

Lemma StronglySorted_filter_2 {A : Type} (R : relation A) (P : A -> Prop)
    `{!forall x, Decision (P x)} (l : list A) :
  StronglySorted R l -> StronglySorted R (filter P l).
Proof.
  induction 1 as [|a l Hs IH Hall]; [constructor|].
  rewrite filter_cons. case_decide; [|done].
  constructor; [done|]. rewrite Forall_forall in Hall |- *.
  intros b [_ Hb]%list_elem_of_filter. by apply Hall.
Qed.

Lemma StronglySorted_din_instante (df : list Linha) :
  StronglySorted ordem_principal df ->
  StronglySorted Z.le (din_instante <$> df).
Proof.
  induction 1 as [|l df Hs IH Hall]; csimpl; constructor; [done|].
  apply Forall_fmap. eapply Forall_impl; [exact Hall|].
  intros l'. apply ordem_principal_instante.
Qed.

Section Grafico.

Variables (cores : list string) (df : list Linha).

Lemma pontos_series (subsistemas : list string) :
  forall i : nat,
    sum_list_with (fun t => length (go.x t)) (series cores df i subsistemas) =
    sum_list_with (fun s => length (df_sub df s)) subsistemas.
Proof.
  induction subsistemas as [|s resto IH]; intros i; simpl; [done|].
  destruct (df_sub df s) as [|l ls] eqn:Hs; simpl.
  - apply IH.
  - rewrite IH, length_fmap, Hs. done.
Qed.

(** The colours of the series of [subsistemas] are palette entries at
    indices from [i] on, each index used at most once. *)
Lemma cores_series (subsistemas : list string) :
  forall i : nat,
    NoDup cores ->
    (i + length subsistemas <= length cores)%nat ->
    NoDup (go.color ∘ go.line <$> series cores df i subsistemas) /\
    forall cor, cor ∈ (go.color ∘ go.line <$> series cores df i subsistemas) ->
      exists k, (i <= k < length cores)%nat /\ cor = nth k cores "".
Proof.
  induction subsistemas as [|s resto IH]; intros i Hnd Hlen; simpl.
  - split; [constructor|]. by intros cor ?%elem_of_nil.
  - simpl in Hlen. destruct (IH (S i) Hnd ltac:(lia)) as [IHnd IHin].
    destruct (df_sub df s) as [|l ls].
    + split; [done|]. intros cor (k & Hk & ->)%IHin. exists k. split; [lia|done].
    + csimpl. rewrite Nat.mod_small by lia. split.
      * constructor; [|done]. intros (k & Hk & Heq)%IHin.
        apply (proj1 (NoDup_nth cores "") (proj1 (NoDup_ListNoDup cores) Hnd))
          in Heq; lia.
      * intros cor [->|(k & Hk & ->)%IHin]%elem_of_cons.
        -- exists i. split; [lia|done].
        -- exists k. split; [lia|done].
Qed.

End Grafico.

Lemma sum_df_sub (sel : list string) (df : list Linha) :
  NoDup sel ->
  Forall (fun l => nom_subsistema l ∈ sel) df ->
  sum_list_with (fun s => length (df_sub df s)) sel = length df.
Proof.
  intros Hnd. induction 1 as [|l df Hl _ IH]; simpl.
  - induction sel as [|s sel IHs]; simpl; [done|].
    apply NoDup_cons in Hnd as [_ Hnd]. by rewrite IHs.
  - rewrite <- IH. clear IH. revert Hnd Hl.
    induction sel as [|s sel IHs]; intros Hnd Hl; [by apply elem_of_nil in Hl|].
    apply NoDup_cons in Hnd as [Hs Hnd]. simpl.
    unfold df_sub at 1. rewrite filter_cons. fold (df_sub df s).
    apply elem_of_cons in Hl as [Heq|Hin].
    + rewrite decide_True by done. simpl. f_equal. f_equal.
      clear IHs. subst s. induction sel as [|s' sel IHs']; simpl; [done|].
      apply not_elem_of_cons in Hs as [Hne Hs].
      apply NoDup_cons in Hnd as [_ Hnd].
      unfold df_sub at 1. rewrite filter_cons, decide_False by done.
      fold (df_sub df s'). f_equal. by apply IHs'.
    + rewrite decide_False by (intros <-; done).
      rewrite (IHs Hnd Hin). lia.
Qed.

(** X8. In the chart drawn from a frame the main query answered with,
    every series has at least one point, as many x as y values, and its
    x values in non-decreasing order of time. *)
Theorem X8_series_nao_vazias_em_ordem_de_tempo (cores : list string)
    (c : Client) (d1 d2 : Data) (sel : list string) (df : list Linha) :
  query_df c (query_principal d1 d2 sel) = inr df ->
  Forall (fun t => go.x t <> [] /\
                   length (go.x t) = length (go.y t) /\
                   StronglySorted Z.le (go.x t))
         (go.data (curva_de_carga cores df sel)).
Proof.
  intros ->%query_df_principal_ok.
  set (df := executar (query_principal d1 d2 sel) (tabela c)).
  rewrite curva_de_carga_data. apply Forall_forall. intros t Ht.
  apply elem_of_series in Ht as (j & s & _ & Hne & ->). simpl.
  split; [|split].
  - by destruct (df_sub df s).
  - by rewrite !length_fmap.
  - apply StronglySorted_din_instante, StronglySorted_filter_2.
    apply executar_principal_ordenado.
Qed.

(** X9. With a selection free of repetitions, the points of the chart
    drawn from the fetched frame are as many as the rows of the frame:
    every row is drawn, in exactly one series. *)
Theorem X9_cada_linha_e_um_ponto (cores : list string) (c : Client)
    (d1 d2 : Data) (sel : list string) (df : list Linha) :
  query_df c (query_principal d1 d2 sel) = inr df ->
  NoDup sel ->
  pontos (curva_de_carga cores df sel) = length df.
Proof.
  intros Hq Hnd. unfold pontos. rewrite curva_de_carga_data, pontos_series.
  apply sum_df_sub; [done|].
  apply query_df_principal_ok in Hq as ->. apply Forall_forall. intros l Hl.
  apply elem_of_executar_principal in Hl as (r & _ & (_ & _ & Hr) & ->).
  exact Hr.
Qed.

(** X10. The chart drawn from a non-empty frame the main query
    answered with has at least one series. *)
Theorem X10_grafico_tem_serie (cores : list string) (c : Client)
    (d1 d2 : Data) (sel : list string) (df : list Linha) :
  query_df c (query_principal d1 d2 sel) = inr df ->
  df <> [] ->
  go.data (curva_de_carga cores df sel) <> [].
Proof.
  intros Hq Hne. destruct df as [|l df]; [done|].
  assert (Hl : nom_subsistema l ∈ sel).
  { pose proof (query_df_principal_ok _ _ _ _ _ Hq) as Hdf.
    assert (Hin : l ∈ executar (query_principal d1 d2 sel) (tabela c))
      by (rewrite <- Hdf; left).
    by apply elem_of_executar_principal in Hin as (r & _ & (_ & _ & Hr) & ->). }
  apply list_elem_of_lookup in Hl as [i Hi].
  assert (Ht : trace cores (l :: df) i (nom_subsistema l)
               ∈ go.data (curva_de_carga cores (l :: df) sel)).
  { rewrite curva_de_carga_data. apply elem_of_series.
    exists i, (nom_subsistema l). split; [done|]. split; [|done].
    unfold df_sub. rewrite filter_cons, decide_True by done. done. }
  intros Hnil. rewrite Hnil in Ht. by apply elem_of_nil in Ht.
Qed.

(** X11. While the selection is no longer than a palette without
    repeated entries, no two series of the chart share a colour; past
    the palette's size the colours come round again: the series at
    selection index i + (palette size) has the colour of the one at i. *)
Theorem X11_cores_distintas_ate_a_paleta (cores : list string)
    (df : list Linha) (sel : list string) :
  NoDup cores ->
  (length sel <= length cores)%nat ->
  NoDup (go.color ∘ go.line <$> go.data (curva_de_carga cores df sel)) /\
  forall (i : nat) (s s' : string),
    go.color (go.line (trace cores df (i + length cores) s)) =
    go.color (go.line (trace cores df i s')).
Proof.
  intros Hnd Hlen. split.
  - rewrite curva_de_carga_data. by apply cores_series.
  - intros i s s'. simpl.
    replace (i + length cores)%nat with (i + 1 * length cores)%nat by lia.
    by rewrite Nat.Div0.mod_add.
Qed.

Lemma X8_series_exemplo :
  let sel := ["N"; "S"; "SE/CO"] in
  let df := executar (query_principal 19722 19729 sel) Exemplo.registros in
  query_df Exemplo.cliente (query_principal 19722 19729 sel) = inr df /\
  go.x <$> go.data (curva_de_carga Exemplo.plotly_Set1 df sel) =
    [[1704067200]; [1704067200; 1704069000]]%Z /\
  Forall (fun t => go.x t <> [] /\
                   length (go.x t) = length (go.y t) /\
                   StronglySorted Z.le (go.x t))
         (go.data (curva_de_carga Exemplo.plotly_Set1 df sel)).
Proof.
  intros sel df. split; [reflexivity|]. split; [by vm_compute|].
  by apply (X8_series_nao_vazias_em_ordem_de_tempo Exemplo.plotly_Set1
              Exemplo.cliente 19722%Z 19729%Z sel).
Defined.

Lemma X9_pontos_exemplo :
  let sel := ["N"; "S"; "SE/CO"] in
  let df := executar (query_principal 19722 19729 sel) Exemplo.registros in
  (query_df Exemplo.cliente (query_principal 19722 19729 sel) = inr df /\
   NoDup sel) /\
  length df = 3%nat /\
  pontos (curva_de_carga Exemplo.plotly_Set1 df sel) = length df.
Proof.
  intros sel df.
  assert (Hnd : NoDup sel) by (apply (bool_decide_unpack _); by vm_compute).
  split; [by split|]. split; [by vm_compute|].
  by apply (X9_cada_linha_e_um_ponto Exemplo.plotly_Set1
              Exemplo.cliente 19722%Z 19729%Z sel).
Defined.

Lemma X10_grafico_exemplo :
  let sel := ["N"; "S"; "SE/CO"] in
  let df := executar (query_principal 19722 19729 sel) Exemplo.registros in
  (query_df Exemplo.cliente (query_principal 19722 19729 sel) = inr df /\
   df <> []) /\
  go.data (curva_de_carga Exemplo.plotly_Set1 df sel) <> [].
Proof.
  intros sel df.
  assert (Hne : df <> []) by (by vm_compute).
  split; [by split|].
  by apply (X10_grafico_tem_serie Exemplo.plotly_Set1
              Exemplo.cliente 19722%Z 19729%Z sel).
Defined.

Lemma X11_cores_exemplo :
  let sel := ["N"; "S"; "SE/CO"] in
  let df := executar (query_principal 19722 19729 sel) Exemplo.registros in
  (NoDup Exemplo.plotly_Set1 /\
   (length sel <= length Exemplo.plotly_Set1)%nat) /\
  NoDup (go.color ∘ go.line <$>
           go.data (curva_de_carga Exemplo.plotly_Set1 df sel)) /\
  forall (i : nat) (s s' : string),
    go.color (go.line (trace Exemplo.plotly_Set1 df
                         (i + length Exemplo.plotly_Set1) s)) =
    go.color (go.line (trace Exemplo.plotly_Set1 df i s')).
Proof.
  intros sel df.
  assert (Hnd : NoDup Exemplo.plotly_Set1)
    by (apply (bool_decide_unpack _); by vm_compute).
  assert (Hlen : (length sel <= length Exemplo.plotly_Set1)%nat)
    by (vm_compute; lia).
  split; [by split|].
  exact (X11_cores_distintas_ate_a_paleta Exemplo.plotly_Set1 df sel Hnd Hlen).
Defined.

(** ** More on the renewable share *)

Lemma pd_sum_ext {A : Type} (f g : A -> Q) (xs : list A) :
  Forall (fun a => f a == g a) xs -> pd.sum (f <$> xs) == pd.sum (g <$> xs).
Proof.
  intros H. apply Qle_antisym; apply pd_sum_le;
    (eapply Forall_impl; [exact H|]); simpl; intros a Ha; rewrite Ha;
    apply Qle_refl.
Qed.

(** X12. On a frame handed back for the main query: if no row has
    thermal generation, no hydro, wind or solar value is negative and
    the total-generation sum is positive and within the Float64 range,
    the renewable percentage is 100; if no row has hydro, wind or solar
    generation, it is 0. *)
Theorem X12_renovavel_tudo_ou_nada (c : Client) (d1 d2 : Data)
    (sel : list string) (df : list Linha) :
  resultado (load_data c (query_principal d1 d2 sel)) = inr df ->
  (Forall (fun l => geracao_termica l == 0 /\ 0 <= geracao_hidraulica l /\
                    0 <= geracao_eolica l /\ 0 <= geracao_solar l) df ->
   0 < geracao_total_soma df ->
   geracao_total_soma df <= limite_float64 ->
   renovavel_pct df == 100) /\
  (Forall (fun l => geracao_hidraulica l == 0 /\ geracao_eolica l == 0 /\
                    geracao_solar l == 0) df ->
   renovavel_pct df == 0).
Proof.
  intros Hdf. apply linhas_de_load_data in Hdf. split.
  - intros Ht Hpos _.
    assert (Heq : geracao_renovavel df == geracao_total_soma df).
    { rewrite geracao_renovavel_por_linha. unfold geracao_total_soma.
      apply pd_sum_ext. rewrite Forall_forall in Hdf, Ht |- *.
      intros l Hl. destruct (Hdf l Hl) as (r & _ & _ & Hr).
      destruct (Ht l Hl) as [Ht0 _]. rewrite Hr in Ht0 |- *.
      rewrite selecionar_total. rewrite Ht0. ring. }
    unfold renovavel_pct.
    destruct (Qlt_le_dec 0 (geracao_total_soma df)) as [H|H];
      [|by apply Qlt_not_le in Hpos].
    rewrite Heq. field. intros Hz. rewrite Hz in Hpos.
    by apply Qlt_irrefl in Hpos.
  - intros Hz.
    assert (Heq : geracao_renovavel df == 0).
    { rewrite geracao_renovavel_por_linha.
      transitivity (pd.sum ((fun _ : Linha => 0) <$> df)).
      - apply pd_sum_ext. eapply Forall_impl; [exact Hz|]. simpl.
        intros l (-> & -> & ->). ring.
      - clear. induction df as [|l df IH]; [reflexivity|].
        csimpl. rewrite IH. ring. }
    unfold renovavel_pct.
    destruct (Qlt_le_dec 0 (geracao_total_soma df)) as [H|H]; [|reflexivity].
    rewrite Heq. field. intros Hz'. rewrite Hz' in H.
    by apply Qlt_irrefl in H.
Qed.

Lemma X12_renovavel_exemplo :
  let q := query_principal 19722 19729 ["S"] in
  let df := executar q Exemplo.registros in
  (resultado (load_data Exemplo.cliente q) = inr df /\
   Forall (fun l => geracao_termica l == 0 /\ 0 <= geracao_hidraulica l /\
                    0 <= geracao_eolica l /\ 0 <= geracao_solar l) df /\
   0 < geracao_total_soma df /\
   geracao_total_soma df <= limite_float64) /\
  renovavel_pct df == 100.
Proof.
  intros q df.
  assert (Ht : Forall (fun l => geracao_termica l == 0 /\
                                0 <= geracao_hidraulica l /\
                                0 <= geracao_eolica l /\
                                0 <= geracao_solar l) df)
    by (vm_compute; repeat constructor; discriminate).
  assert (Hpos : 0 < geracao_total_soma df) by (by vm_compute).
  assert (Hlim : geracao_total_soma df <= limite_float64)
    by (vm_compute; discriminate).
  split; [by repeat split|].
  exact (proj1 (X12_renovavel_tudo_ou_nada Exemplo.cliente 19722%Z 19729%Z
                  ["S"] df eq_refl) Ht Hpos Hlim).
Defined.

(** ** The window and the selection *)

(** X13. When the date picker is left at its default the window is
    today minus seven days up to today, both ends included: the main
    query selects the records of the selected subsystems dated on one
    of eight days, today - 7 up to today. *)
Theorem X13_janela_padrao_oito_dias (amb : Ambiente) (t : list Registro)
    (sel : list string) :
  periodo amb = [timedelta_days (hoje amb) 7; hoje amb] ->
  periodo_de_analise (periodo amb) = ([], inr ((hoje amb - 7)%Z, hoje amb)) /\
  forall l : Linha,
    l ∈ executar (query_principal (hoje amb - 7) (hoje amb) sel) t <->
    exists (r : Registro) (k : Z),
      r ∈ t /\ (0 <= k <= 7)%Z /\ data_ref r = (hoje amb - k)%Z /\
      nom_subsistema_reg r ∈ sel /\ l = selecionar r.
Proof.
  intros Hp. split; [by rewrite Hp|].
  intros l. rewrite elem_of_executar_principal. unfold onde_principal. split.
  - intros (r & Hr & (H1 & H2 & H3) & ->).
    exists r, (hoje amb - data_ref r)%Z. repeat split; [done|lia..|done].
  - intros (r & k & Hr & Hk & Hd & H3 & ->). exists r.
    repeat split; [done|lia..|done].
Qed.

Lemma X13_janela_padrao_exemplo :
  let amb := Exemplo.ambiente in
  periodo amb = [timedelta_days (hoje amb) 7; hoje amb] /\
  periodo_de_analise (periodo amb) = ([], inr (19722, 19729)%Z) /\
  forall l : Linha,
    l ∈ executar (query_principal 19722 19729 ["S"]) Exemplo.registros <->
    exists (r : Registro) (k : Z),
      r ∈ Exemplo.registros /\ (0 <= k <= 7)%Z /\
      data_ref r = (19729 - k)%Z /\
      nom_subsistema_reg r ∈ ["S"] /\ l = selecionar r.
Proof.
  intros amb. split; [reflexivity|].
  exact (X13_janela_padrao_oito_dias amb Exemplo.registros ["S"] eq_refl).
Defined.

(** X14. The fetched frame depends on the selection only as a set of
    labels: selections with the same labels, in any order and with or
    without repetitions, get the same frame. *)
Theorem X14_quadro_so_depende_do_conjunto (t : list Registro) (d1 d2 : Data)
    (sel sel' : list string) :
  (forall s : string, s ∈ sel <-> s ∈ sel') ->
  executar (query_principal d1 d2 sel) t =
  executar (query_principal d1 d2 sel') t.
Proof.
  intros Hset. simpl. f_equal. f_equal. apply list_filter_iff.
  intros r. unfold onde_principal. by rewrite Hset.
Qed.

Lemma X14_quadro_exemplo :
  (forall s : string, s ∈ ["S"; "SE/CO"] <-> s ∈ ["SE/CO"; "S"; "S"]) /\
  executar (query_principal 19722 19729 ["S"; "SE/CO"]) Exemplo.registros =
  executar (query_principal 19722 19729 ["SE/CO"; "S"; "S"]) Exemplo.registros.
Proof.
  assert (H : forall s : string, s ∈ ["S"; "SE/CO"] <-> s ∈ ["SE/CO"; "S"; "S"])
    by (intros s; rewrite !elem_of_cons, !elem_of_nil; tauto).
  split; [exact H|].
  exact (X14_quadro_so_depende_do_conjunto Exemplo.registros 19722%Z 19729%Z
           _ _ H).
Defined.

(** X15. When the catalogue query answers, the catalogue is empty
    exactly when no record of the table carries a non-empty label; the
    pass then shows "could not load the subsystems" and stops although
    the query succeeded. *)
Theorem X15_so_rotulos_vazios_sem_catalogo (amb : Ambiente) (c : Client)
    (disponiveis : list string) :
  get_client amb = inr c ->
  periodo amb <> [] ->
  query_df c subsistemas_query = inr disponiveis ->
  (disponiveis = [] <->
   Forall (fun r => nom_subsistema_reg r = "") (tabela c)) /\
  (Forall (fun r => nom_subsistema_reg r = "") (tabela c) ->
   main amb =
     (cabecalho ++ [st_error "Não foi possível carregar os subsistemas"],
      inl Stop)).
Proof.
  intros Hc Hp Hq.
  assert (Hiff : disponiveis = [] <->
                 Forall (fun r => nom_subsistema_reg r = "") (tabela c)).
  { assert (Hd : disponiveis = executar subsistemas_query (tabela c)).
    { unfold query_df in Hq. destruct (falha _ _ _); [discriminate|].
      by injection Hq as <-. }
    rewrite Hd. clear Hd Hq. rewrite Forall_forall. split.
    - intros Hnil r Hr.
      destruct (decide (nom_subsistema_reg r = "")) as [|Hne]; [done|].
      assert (Hin : nom_subsistema_reg r ∈ executar subsistemas_query (tabela c))
        by (apply elem_of_executar_subsistemas; eauto).
      rewrite Hnil in Hin. by apply elem_of_nil in Hin.
    - intros Hall.
      destruct (executar subsistemas_query (tabela c)) as [|s l] eqn:He; [done|].
      assert (Hin : s ∈ executar subsistemas_query (tabela c))
        by (rewrite He; left).
      apply elem_of_executar_subsistemas in Hin as (Hne & r & Hr & <-).
      by specialize (Hall r Hr). }
  split; [exact Hiff|]. intros Hall. apply Hiff in Hall. subst disponiveis.
  by rewrite (main_sem_catalogo _ _ _ Hc Hp (load_data_ok _ _ _ Hq)).
Qed.

Lemma X15_so_rotulos_vazios_exemplo :
  let c := {| tabela :=
                [ mkRegistro 19723 1704067200 "" 1 None None None None ];
              falha := fun _ _ => None |} in
  let amb := Exemplo.com_cliente c Exemplo.ambiente in
  (get_client amb = inr c /\ periodo amb <> [] /\
   query_df c subsistemas_query = inr []) /\
  (([] : list string) = [] <->
   Forall (fun r => nom_subsistema_reg r = "") (tabela c)) /\
  (Forall (fun r => nom_subsistema_reg r = "") (tabela c) ->
   main amb =
     (cabecalho ++ [st_error "Não foi possível carregar os subsistemas"],
      inl Stop)).
Proof.
  intros c amb. split; [by repeat split|].
  by apply (X15_so_rotulos_vazios_sem_catalogo amb c []).
Defined.

(** ** Metrics and chart together *)

(** X16. Whatever the environment, a pass shows either no metric and
    no chart, or the four metrics and the one chart; and no metric it
    shows is NaN, since the metrics are only computed on a frame with
    at least one row. *)
Theorem X16_metricas_e_grafico_juntos (amb : Ambiente) :
  let evs := eventos (main amb) in
  Forall (fun e => metrica_sem_valor e = false) evs /\
  ((filter (fun e => e_metrica e) evs = [] /\
    filter (fun e => e_grafico e) evs = []) \/
   (length (filter (fun e => e_metrica e) evs) = 4%nat /\
    length (filter (fun e => e_grafico e) evs) = 1%nat)).
Proof.
  intros evs. unfold evs. clear evs.
  destruct (main_casos amb)
    as [(e & He)|[(c & Hc & Hp)|[(c & Hc & Hp & e & Hq)|[(c & Hc & Hp & Hq)|
        (c & d1 & d2 & sel & Hchega)]]]].
  - rewrite (main_sem_conexao _ _ He).
    split; [by repeat constructor|by left].
  - rewrite (main_periodo_vazio _ _ Hc Hp).
    split; [by repeat constructor|by left].
  - rewrite (main_sem_catalogo _ _ _ Hc Hp (load_data_falha _ _ _ Hq)).
    split; [by repeat constructor|by left].
  - rewrite (main_sem_catalogo _ _ _ Hc Hp (load_data_ok _ _ _ Hq)).
    split; [by repeat constructor|by left].
  - destruct sel as [|s sel].
    + rewrite (main_sem_selecao _ _ _ _ _ Hchega eq_refl).
      split; [by repeat constructor|by left].
    + destruct (load_data_devolve c (query_principal d1 d2 (s :: sel)))
        as (df & Hl).
      rewrite (main_com_selecao _ _ _ _ _ Hchega _ _ ltac:(done) Hl).
      destruct (query_df c (query_principal d1 d2 (s :: sel))) as [e|df0];
        destruct df as [|l df];
        (split; [by repeat constructor|first [by left|by right]]).
Qed.
